(** * The image compression route (src/app/api/compress/route.ts)

    A shallow embedding of the [POST] handler of the compression endpoint,
    together with the properties its specification states about it.

    The handler calls into three things that live outside the repository:
    the request object of the web framework, the [sharp] codec and Node's
    [Buffer].  The request is modelled as data (what each of its methods
    resolves to), the codec as a record of functions the handler is
    parameterised over, and the base64 rendering of a [Buffer] is written
    out.  Every external call the handler makes is recorded in a log of
    events, so that statements of the kind "no encoder is invoked" can be
    phrased and proved. *)

From Stdlib Require Import ZArith NArith List String Ascii Bool Lia.
From Stdlib Require Import Strings.Byte DecimalString.
Import ListNotations.

Local Open Scope string_scope.
Local Open Scope Z_scope.

Set Implicit Arguments.

(** ** JavaScript values and effects *)

(** A thrown value.  The handler never inspects it; it only hands it to
    [console.error]. *)
Record JsError := mkError {
  err_name : string;
  err_message : string;
  err_stack : string
}.

(** What awaiting a promise (or evaluating a call) ends in. *)
Inductive outcome (A : Type) : Type :=
| Ok (a : A)
| Throw (e : JsError).

Arguments Ok {A} a.
Arguments Throw {A} e.

Definition Buffer := list byte.

(** The one falsy string. *)
Definition is_empty (s : string) : bool :=
  match s with EmptyString => true | _ => false end.

(** ** Base64, as [Buffer.prototype.toString("base64")] renders it

    The standard alphabet of RFC 4648 with [=] padding. *)
Module Base64.

Definition alphabet : string :=
  "ABCDEFGHIJKLMNOPQRSTUVWXYZabcdefghijklmnopqrstuvwxyz0123456789+/".

Definition pad : ascii := "="%char.

Definition sextet_char (n : N) : ascii :=
  match String.get (N.to_nat n) alphabet with
  | Some c => c
  | None => pad
  end.

Fixpoint index_from (i : N) (c : ascii) (s : string) : option N :=
  match s with
  | EmptyString => None
  | String d s' => if Ascii.eqb c d then Some i else index_from (N.succ i) c s'
  end.

Definition char_sextet (c : ascii) : option N := index_from 0%N c alphabet.

(** The four sextets of a 24-bit group [a b c]. *)
Definition s0 (a : N) : N := (a / 4)%N.
Definition s1 (a b : N) : N := ((a mod 4) * 16 + b / 16)%N.
Definition s2 (b c : N) : N := ((b mod 16) * 4 + c / 64)%N.
Definition s3 (c : N) : N := (c mod 64)%N.

Fixpoint encode (bs : Buffer) : string :=
  match bs with
  | [] => EmptyString
  | [a] =>
      let a := Byte.to_N a in
      String (sextet_char (s0 a)) (String (sextet_char (s1 a 0))
        (String pad (String pad EmptyString)))
  | [a; b] =>
      let a := Byte.to_N a in
      let b := Byte.to_N b in
      String (sextet_char (s0 a)) (String (sextet_char (s1 a b))
        (String (sextet_char (s2 b 0)) (String pad EmptyString)))
  | a :: b :: c :: rest =>
      let a := Byte.to_N a in
      let b := Byte.to_N b in
      let c := Byte.to_N c in
      String (sextet_char (s0 a)) (String (sextet_char (s1 a b))
        (String (sextet_char (s2 b c)) (String (sextet_char (s3 c))
          (encode rest))))
  end.

(** The bytes of a group, recovered from its sextets. *)
Definition b0 (x y : N) : option byte := Byte.of_N (x * 4 + y / 16)%N.
Definition b1 (y z : N) : option byte := Byte.of_N ((y mod 16) * 16 + z / 4)%N.
Definition b2 (z w : N) : option byte := Byte.of_N ((z mod 4) * 64 + w)%N.

Fixpoint decode (s : string) : option Buffer :=
  match s with
  | EmptyString => Some []
  | String c0 (String c1 (String c2 (String c3 rest))) =>
      match char_sextet c0, char_sextet c1 with
      | Some x, Some y =>
          if is_empty rest && Ascii.eqb c3 pad then
            if Ascii.eqb c2 pad then
              match b0 x y with Some a => Some [a] | None => None end
            else
              match char_sextet c2 with
              | Some z =>
                  match b0 x y, b1 y z with
                  | Some a, Some b => Some [a; b]
                  | _, _ => None
                  end
              | None => None
              end
          else
            match char_sextet c2, char_sextet c3 with
            | Some z, Some w =>
                match b0 x y, b1 y z, b2 z w, decode rest with
                | Some a, Some b, Some c, Some tl => Some (a :: b :: c :: tl)
                | _, _, _, _ => None
                end
            | _, _ => None
            end
      | _, _ => None
      end
  | _ => None
  end.

(** A sextet survives the trip through the alphabet and is never
    rendered as the padding character. *)
Definition sextet_ok (n : N) : bool :=
  match char_sextet (sextet_char n) with
  | Some m => N.eqb m n
  | None => false
  end && negb (Ascii.eqb (sextet_char n) pad).

End Base64.

(** ** The request *)

(** A [File] entry of the form.  [arrayBuffer] is what awaiting
    [file.arrayBuffer()] ends in. *)
Record File := mkFile {
  file_name : string;
  file_type : string;
  arrayBuffer : outcome Buffer
}.

(** [FormDataEntryValue = File | string]. *)
Inductive FormDataEntryValue : Type :=
| EntryFile (f : File)
| EntryString (s : string).

Definition FormData := list (string * FormDataEntryValue).

(** [formData.get(name)]: the first entry under [name], or [null]. *)
Fixpoint FormData_get (name : string) (fd : FormData)
  : option FormDataEntryValue :=
  match fd with
  | [] => None
  | (k, v) :: fd' => if String.eqb k name then Some v else FormData_get name fd'
  end.

(** [formData] is what awaiting [request.formData()] ends in: it throws on
    a body that is not form data. *)
Record NextRequest := mkRequest {
  formData : outcome FormData
}.

(** ** The response *)

Inductive JsonValue : Type :=
| JString (s : string)
| JNumber (n : Z).

Definition JsonObject := list (string * JsonValue).

Record NextResponse := mkResponse {
  status : Z;
  body : JsonObject
}.

(** [NextResponse.json(body, init)]: the status is 200 unless [init] gives
    one. *)
Definition NextResponse_json (b : JsonObject) (init : option Z)
  : NextResponse :=
  {| status := match init with Some s => s | None => 200 end; body := b |}.

Fixpoint field (name : string) (o : JsonObject) : option JsonValue :=
  match o with
  | [] => None
  | (k, v) :: o' => if String.eqb k name then Some v else field name o'
  end.

(** ** The codec *)

(** The option object handed to [.jpeg(...)], [.png(...)] or [.webp(...)];
    the constructor is the output format the pipeline is set to. *)
Inductive OutputOptions : Type :=
| jpeg (quality : Z) (mozjpeg : bool)
| png (quality : Z) (compressionLevel : Z)
| webp (quality : Z).

(** The encoding such a call produces. *)
Definition output_format (opts : OutputOptions) : string :=
  match opts with
  | jpeg _ _ => "jpeg"
  | png _ _ => "png"
  | webp _ => "webp"
  end.

(** The part of sharp's [Metadata] the handler reads. *)
Record Metadata := mkMetadata {
  format : option string;
  width : option Z;
  height : option Z
}.

(** The codec library, as the handler uses it: [sharp(buffer)] builds a
    processor, [.metadata()] inspects it and [.jpeg/.png/.webp(opts)
    .toBuffer()] encodes it.  Each is a function, and each may throw. *)
Record Sharp := mkSharp {
  Processor : Type;
  sharp : Buffer -> outcome Processor;
  metadata : Processor -> outcome Metadata;
  toBuffer : Processor -> OutputOptions -> outcome Buffer
}.

(** ** Logged computations *)

(** The external calls of the handler. *)
Inductive event : Type :=
| EvFormData
| EvArrayBuffer
| EvSharp (input : Buffer)
| EvMetadata
| EvEncode (opts : OutputOptions)
| EvConsoleError (e : JsError).

(** A computation yields the events it performed and how it ended. *)
Definition M (A : Type) : Type := (list event * outcome A)%type.

Definition ret {A} (a : A) : M A := ([], Ok a).

Definition bind {A B} (m : M A) (k : A -> M B) : M B :=
  match m with
  | (l, Ok a) => let (l', r) := k a in ((l ++ l')%list, r)
  | (l, Throw e) => (l, Throw e)
  end.

Definition call {A} (ev : event) (o : outcome A) : M A := ([ev], o).

Definition raise {A} (e : JsError) : M A := ([], Throw e).

(** [try { m } catch (error) { h error }] *)
Definition try_catch {A} (m : M A) (h : JsError -> M A) : M A :=
  match m with
  | (l, Ok a) => (l, Ok a)
  | (l, Throw e) => let (l', r) := h e in ((l ++ l')%list, r)
  end.

Definition events {A} (m : M A) : list event := fst m.
Definition result {A} (m : M A) : outcome A := snd m.

Notation "x <- m ;; k" := (bind m (fun x => k))
  (at level 61, m at next level, right associativity).

(** ** The handler *)

(** JavaScript's [!v] on a form entry or [null]: [null] and the empty
    string are falsy, every object is truthy. *)
Definition not_entry (v : option FormDataEntryValue) : bool :=
  match v with
  | None => true
  | Some (EntryString s) => is_empty s
  | Some (EntryFile _) => false
  end.

(** [!s] on [string | undefined]. *)
Definition not_string (v : option string) : bool :=
  match v with
  | None => true
  | Some s => is_empty s
  end.

(** [v === s] for a string literal [s]. *)
Definition strict_eq (v : option FormDataEntryValue) (s : string) : bool :=
  match v with
  | Some (EntryString t) => String.eqb t s
  | _ => false
  end.

(** [image.arrayBuffer()].  The cast [as File] checks nothing: on a string
    entry the method does not exist and the call throws a TypeError. *)
Definition not_a_function : JsError :=
  mkError "TypeError" "image.arrayBuffer is not a function" "route.ts:17".

Definition image_arrayBuffer (image : option FormDataEntryValue) : M Buffer :=
  match image with
  | Some (EntryFile f) => call EvArrayBuffer (arrayBuffer f)
  | _ => raise not_a_function
  end.

(** Lines 18-29: the [switch (compressionLevel)] that sets [quality]. *)
Definition resolveQuality (compressionLevel : option FormDataEntryValue) : Z :=
  if strict_eq compressionLevel "low" then 80
  else if strict_eq compressionLevel "high" then 40
  else 60.

(** Lines 45-63: the [switch (format)] that picks the encoder. *)
Definition encoderFor (format : string) (quality : Z) : OutputOptions :=
  if String.eqb format "jpeg" then jpeg quality true
  else if String.eqb format "jpg" then jpeg quality true
  else if String.eqb format "png" then png quality 9
  else if String.eqb format "webp" then webp quality
  else webp quality.

(** Lines 66-68: the template literal. *)
Definition dataUrl (format : string) (processedBuffer : Buffer) : string :=
  "data:image/" ++ format ++ ";base64," ++ Base64.encode processedBuffer.

Definition no_image_response : NextResponse :=
  NextResponse_json [("error", JString "No image file provided")] (Some 400).

Definition invalid_format_response : NextResponse :=
  NextResponse_json [("error", JString "Invalid image format")] (Some 400).

Definition failure_response : NextResponse :=
  NextResponse_json [("error", JString "Failed to process image")] (Some 500).

Definition success_response (format : string) (processedBuffer : Buffer)
  : NextResponse :=
  NextResponse_json
    [("compressedDataUrl", JString (dataUrl format processedBuffer));
     ("size", JNumber (Z.of_nat (List.length processedBuffer)));
     ("format", JString format)]
    None.

Section Route.

Variable S : Sharp.

(** Lines 31-74, from [sharp(buffer)] on. *)
Definition process (buffer : Buffer) (quality : Z) : M NextResponse :=
  imageProcessor <- call (EvSharp buffer) (sharp S buffer) ;;
  md <- call EvMetadata (metadata S imageProcessor) ;;
  if not_string (format md) then ret invalid_format_response
  else
    match format md with
    | None => ret invalid_format_response
    | Some format =>
        let opts := encoderFor format quality in
        processedBuffer <- call (EvEncode opts) (toBuffer S imageProcessor opts) ;;
        ret (success_response format processedBuffer)
    end.

(** Lines 6-74: the body of the [try] block. *)
Definition POST_try (request : NextRequest) : M NextResponse :=
  fd <- call EvFormData (formData request) ;;
  let image := FormData_get "image" fd in
  let compressionLevel := FormData_get "compressionLevel" fd in
  if not_entry image then ret no_image_response
  else
    buffer <- image_arrayBuffer image ;;
    let quality := resolveQuality compressionLevel in
    process buffer quality.

(** Lines 75-81: the [catch] block. *)
Definition POST_catch (error : JsError) : M NextResponse :=
  _ <- call (EvConsoleError error) (Ok tt) ;;
  ret failure_response.

Definition POST (request : NextRequest) : M NextResponse :=
  try_catch (POST_try request) POST_catch.

End Route.

(** ** The paths through the handler

    Every way a request can travel through [POST], as the log and the
    response it ends with.  [POST_path] below shows the handler always
    follows one of them. *)

Section Paths.

Variable S : Sharp.

Definition level (fd : FormData) : Z :=
  resolveQuality (FormData_get "compressionLevel" fd).

Inductive path (request : NextRequest) : M NextResponse -> Prop :=
| path_formData_throws e :
    formData request = Throw e ->
    path request ([EvFormData; EvConsoleError e], Ok failure_response)
| path_no_image fd :
    formData request = Ok fd ->
    not_entry (FormData_get "image" fd) = true ->
    path request ([EvFormData], Ok no_image_response)
| path_not_a_file fd s :
    formData request = Ok fd ->
    FormData_get "image" fd = Some (EntryString s) ->
    is_empty s = false ->
    path request
      ([EvFormData; EvConsoleError not_a_function], Ok failure_response)
| path_arrayBuffer_throws fd f e :
    formData request = Ok fd ->
    FormData_get "image" fd = Some (EntryFile f) ->
    arrayBuffer f = Throw e ->
    path request
      ([EvFormData; EvArrayBuffer; EvConsoleError e], Ok failure_response)
| path_sharp_throws fd f buffer e :
    formData request = Ok fd ->
    FormData_get "image" fd = Some (EntryFile f) ->
    arrayBuffer f = Ok buffer ->
    sharp S buffer = Throw e ->
    path request
      ([EvFormData; EvArrayBuffer; EvSharp buffer; EvConsoleError e],
       Ok failure_response)
| path_metadata_throws fd f buffer p e :
    formData request = Ok fd ->
    FormData_get "image" fd = Some (EntryFile f) ->
    arrayBuffer f = Ok buffer ->
    sharp S buffer = Ok p ->
    metadata S p = Throw e ->
    path request
      ([EvFormData; EvArrayBuffer; EvSharp buffer; EvMetadata;
        EvConsoleError e],
       Ok failure_response)
| path_no_format fd f buffer p md :
    formData request = Ok fd ->
    FormData_get "image" fd = Some (EntryFile f) ->
    arrayBuffer f = Ok buffer ->
    sharp S buffer = Ok p ->
    metadata S p = Ok md ->
    not_string (format md) = true ->
    path request
      ([EvFormData; EvArrayBuffer; EvSharp buffer; EvMetadata],
       Ok invalid_format_response)
| path_toBuffer_throws fd f buffer p md fmt e :
    formData request = Ok fd ->
    FormData_get "image" fd = Some (EntryFile f) ->
    arrayBuffer f = Ok buffer ->
    sharp S buffer = Ok p ->
    metadata S p = Ok md ->
    format md = Some fmt ->
    is_empty fmt = false ->
    toBuffer S p (encoderFor fmt (level fd)) = Throw e ->
    path request
      ([EvFormData; EvArrayBuffer; EvSharp buffer; EvMetadata;
        EvEncode (encoderFor fmt (level fd)); EvConsoleError e],
       Ok failure_response)
| path_success fd f buffer p md fmt processedBuffer :
    formData request = Ok fd ->
    FormData_get "image" fd = Some (EntryFile f) ->
    arrayBuffer f = Ok buffer ->
    sharp S buffer = Ok p ->
    metadata S p = Ok md ->
    format md = Some fmt ->
    is_empty fmt = false ->
    toBuffer S p (encoderFor fmt (level fd)) = Ok processedBuffer ->
    path request
      ([EvFormData; EvArrayBuffer; EvSharp buffer; EvMetadata;
        EvEncode (encoderFor fmt (level fd))],
       Ok (success_response fmt processedBuffer)).

(** The verdict line 34 tests: the codec takes the buffer, and the
    metadata it resolves with carries no format. *)
Definition undecodable (buffer : Buffer) : Prop :=
  exists p md,
    sharp S buffer = Ok p /\
    metadata S p = Ok md /\
    not_string (format md) = true.

(** A fault: something the [try] block calls throws. *)
Inductive fault (request : NextRequest) : JsError -> Prop :=
| fault_formData e :
    formData request = Throw e -> fault request e
| fault_not_a_file fd s :
    formData request = Ok fd ->
    FormData_get "image" fd = Some (EntryString s) ->
    is_empty s = false ->
    fault request not_a_function
| fault_arrayBuffer fd f e :
    formData request = Ok fd ->
    FormData_get "image" fd = Some (EntryFile f) ->
    arrayBuffer f = Throw e ->
    fault request e
| fault_sharp fd f buffer e :
    formData request = Ok fd ->
    FormData_get "image" fd = Some (EntryFile f) ->
    arrayBuffer f = Ok buffer ->
    sharp S buffer = Throw e ->
    fault request e
| fault_metadata fd f buffer p e :
    formData request = Ok fd ->
    FormData_get "image" fd = Some (EntryFile f) ->
    arrayBuffer f = Ok buffer ->
    sharp S buffer = Ok p ->
    metadata S p = Throw e ->
    fault request e
| fault_toBuffer fd f buffer p md fmt e :
    formData request = Ok fd ->
    FormData_get "image" fd = Some (EntryFile f) ->
    arrayBuffer f = Ok buffer ->
    sharp S buffer = Ok p ->
    metadata S p = Ok md ->
    format md = Some fmt ->
    is_empty fmt = false ->
    toBuffer S p (encoderFor fmt (level fd)) = Throw e ->
    fault request e.

End Paths.

(** The encoder calls in a log. *)
Fixpoint encoder_calls (l : list event) : list OutputOptions :=
  match l with
  | [] => []
  | EvEncode opts :: l' => opts :: encoder_calls l'
  | _ :: l' => encoder_calls l'
  end.


(** ** A stand-in codec and some requests, for closed examples *)

Fixpoint starts_with (prefix buf : Buffer) : bool :=
  match prefix, buf with
  | [], _ => true
  | x :: prefix', y :: buf' => Byte.eqb x y && starts_with prefix' buf'
  | _ :: _, [] => false
  end.

Definition described (fmt : string) : outcome Metadata :=
  Ok {| format := Some fmt; width := Some 1; height := Some 1 |}.

Definition stub_metadata (p : Buffer) : outcome Metadata :=
  if starts_with [xff; xd8; xff] p then described "jpeg"
  else if starts_with [x89; x50; x4e; x47] p then described "png"
  else if starts_with [x52; x49; x46; x46] p then described "webp"
  else if starts_with [x47; x49; x46; x38] p then described "gif"
  else if starts_with [x00] p then
    Throw (mkError "Error" "Input buffer has corrupt header" "sharp/lib/input.js")
  else Ok {| format := None; width := None; height := None |}.

Definition stub_toBuffer (p : Buffer) (opts : OutputOptions) : outcome Buffer :=
  if (List.length p <? 4)%nat then
    Throw (mkError "Error" "Premature end of input" "sharp/lib/output.js")
  else
    match opts with
    | jpeg q _ => Ok ([xff; xd8; xff] ++ firstn (Z.to_nat (q / 40)) p)%list
    | png q _ => Ok ([x89; x50; x4e; x47] ++ firstn (Z.to_nat (q / 40)) p)%list
    | webp q => Ok ([x52; x49; x46; x46] ++ firstn (Z.to_nat (q / 40)) p)%list
    end.

Definition stub : Sharp :=
  {| Processor := Buffer;
     sharp := fun buffer =>
       match buffer with
       | [] => Throw (mkError "Error" "Input Buffer is empty" "sharp/lib/input.js")
       | _ => Ok buffer
       end;
     metadata := stub_metadata;
     toBuffer := stub_toBuffer |}.

Definition upload (name : string) (bytes : Buffer) (tier : string)
  : NextRequest :=
  {| formData :=
       Ok [("image", EntryFile (mkFile name "image/*" (Ok bytes)));
           ("compressionLevel", EntryString tier)] |}.

Definition jpeg_bytes : Buffer := [xff; xd8; xff; xe0; x00; x10; x4a; x46].
Definition gif_bytes : Buffer := [x47; x49; x46; x38; x39; x61; x01; x00].
Definition text_bytes : Buffer := [x68; x65; x6c; x6c; x6f].
Definition corrupt_bytes : Buffer := [x00; x01; x02; x03].

(** What the stand-in codec makes of [jpeg_bytes] at "medium" and of
    [gif_bytes] at "medium". *)
Definition jpeg_medium_response : NextResponse :=
  {| status := 200;
     body := [("compressedDataUrl", JString "data:image/jpeg;base64,/9j//w==");
              ("size", JNumber 4);
              ("format", JString "jpeg")] |}.

Definition gif_medium_response : NextResponse :=
  {| status := 200;
     body := [("compressedDataUrl", JString "data:image/gif;base64,UklGRkc=");
              ("size", JNumber 5);
              ("format", JString "gif")] |}.

(** The same picture, sent under another name, with the fields in another
    order and one field more. *)
Definition upload_again (name : string) (bytes : Buffer) (tier : string)
  : NextRequest :=
  {| formData :=
       Ok [("compressionLevel", EntryString tier);
           ("note", EntryString "second attempt");
           ("image", EntryFile (mkFile name "image/jpeg" (Ok bytes)))] |}.


(** ** The page (src/app/page.tsx)

    The client side of the route: the list of compressed images the page
    keeps in React state, the two handlers that edit it, and [onDrop],
    which posts each dropped file to the route and stores the answers. *)

Module Page.

(** The [compressionLevel] state: ["low" | "medium" | "high"]. *)
Inductive CompressionLevel : Type := low | medium | high.

Definition level_string (l : CompressionLevel) : string :=
  match l with
  | low => "low"
  | medium => "medium"
  | high => "high"
  end.

(** A file as the drop zone hands it over: [file.name], [file.type] and
    its content; [file.size] is the length of the content. *)
Record DroppedFile := mkDropped {
  dropped_name : string;
  dropped_type : string;
  dropped_bytes : Buffer
}.

Definition size (file : DroppedFile) : Z :=
  Z.of_nat (List.length (dropped_bytes file)).

(** Lines 16-23.  The three fields read off [response.data] hold whatever
    the JSON body has under that key, [undefined] ([None]) when it has
    nothing. *)
Record CompressedImage := mkImage {
  originalSize : Z;
  compressedSize : option JsonValue;
  compressedDataUrl : option JsonValue;
  name : string;
  format : option JsonValue;
  previewVisible : bool
}.

(** [Array.prototype.map] and [Array.prototype.filter], whose callbacks
    also get the index. *)
Fixpoint map_from {A B} (f : A -> nat -> B) (i : nat) (l : list A) : list B :=
  match l with
  | [] => []
  | x :: l' => f x i :: map_from f (Datatypes.S i) l'
  end.

Fixpoint filter_from {A} (keep : A -> nat -> bool) (i : nat) (l : list A)
  : list A :=
  match l with
  | [] => []
  | x :: l' =>
      if keep x i then x :: filter_from keep (Datatypes.S i) l'
      else filter_from keep (Datatypes.S i) l'
  end.

(** [{ ...img, previewVisible: !img.previewVisible }] *)
Definition flipped (img : CompressedImage) : CompressedImage :=
  {| originalSize := originalSize img;
     compressedSize := compressedSize img;
     compressedDataUrl := compressedDataUrl img;
     name := name img;
     format := format img;
     previewVisible := negb (previewVisible img) |}.

(** Lines 101-107: the updater [togglePreview] hands to [setImages]. *)
Definition togglePreview (index : nat) (prev : list CompressedImage)
  : list CompressedImage :=
  map_from (fun img i => if Nat.eqb i index then flipped img else img) 0 prev.

(** What the handlers do besides computing: notifications, requests and
    state updates, in order.  [Set_images added] is
    [setImages(prev => [...prev, ...added])]. *)
Inductive effect : Type :=
| Set_isProcessing (b : bool)
| Set_images (added : list CompressedImage)
| Toast_error (msg : string)
| Toast_success (msg : string)
| Axios_post (fd : FormData)
| Console_error (label : string) (e : JsError).

(** Lines 109-112: the updater [deleteImage] hands to [setImages], and the
    notification that follows it. *)
Definition deleteImage (index : nat) (prev : list CompressedImage)
  : list CompressedImage * list effect :=
  (filter_from (fun _ i => negb (Nat.eqb i index)) 0 prev,
   [Toast_success "Image removed successfully!"]).

(** Lines 53-55: the form [onDrop] builds for one file. *)
Definition form (level : CompressionLevel) (file : DroppedFile) : FormData :=
  [("image",
    EntryFile (mkFile (dropped_name file) (dropped_type file)
                 (Ok (dropped_bytes file))));
   ("compressionLevel", EntryString (level_string level))].

(** [file.type.startsWith("image/")] *)
Definition is_image (file : DroppedFile) : bool :=
  String.prefix "image/" (dropped_type file).

(** Lines 63-70: the entry pushed for an answer. *)
Definition entry (file : DroppedFile) (data : JsonObject) : CompressedImage :=
  {| originalSize := size file;
     compressedSize := field "size" data;
     compressedDataUrl := field "compressedDataUrl" data;
     name := dropped_name file;
     format := field "format" data;
     previewVisible := false |}.

Section OnDrop.

(** [axios.post("/api/compress", formData, ...)]: resolves with a response
    whose [data] is the JSON body, or rejects. *)
Variable post : FormData -> outcome JsonObject.

Variable compressionLevel : CompressionLevel.

(** Lines 47-71: the [for] loop, from a given [newImages] on. *)
Fixpoint compress_each (files : list DroppedFile)
  (newImages : list CompressedImage)
  : list effect * outcome (list CompressedImage) :=
  match files with
  | [] => ([], Ok newImages)
  | file :: rest =>
      if negb (is_image file) then
        let (l, r) := compress_each rest newImages in
        (Toast_error (dropped_name file ++ " is not an image file") :: l, r)
      else
        let formData := form compressionLevel file in
        match post formData with
        | Throw e => ([Axios_post formData], Throw e)
        | Ok data =>
            let (l, r) :=
              compress_each rest (newImages ++ [entry file data])%list in
            (Axios_post formData :: l, r)
        end
  end.

(** A file is answered by the entry its response gives. *)
Definition answer (file : DroppedFile) (img : CompressedImage) : Prop :=
  exists data,
    post (form compressionLevel file) = Ok data /\ img = entry file data.

(** Lines 39-83. *)
Definition onDrop (acceptedFiles : list DroppedFile) : list effect :=
  match acceptedFiles with
  | [] => []
  | _ :: _ =>
      let (l, r) := compress_each acceptedFiles [] in
      (Set_isProcessing true :: l
       ++ match r with
          | Ok newImages =>
              [Set_images newImages;
               Toast_success "Images compressed successfully!"]
          | Throw e =>
              [Console_error "Error compressing images:" e;
               Toast_error "Failed to compress images. Please try again."]
          end
       ++ [Set_isProcessing false])%list
  end.

End OnDrop.

(** Lines 73-77: what follows the loop, by how it ended. *)
Definition closing (r : outcome (list CompressedImage)) : list effect :=
  match r with
  | Ok newImages =>
      [Set_images newImages; Toast_success "Images compressed successfully!"]
  | Throw e =>
      [Console_error "Error compressing images:" e;
       Toast_error "Failed to compress images. Please try again."]
  end.

(** The two pieces of state the effects write. *)
Record State := mkState {
  images : list CompressedImage;
  isProcessing : bool
}.

Definition step (st : State) (ef : effect) : State :=
  match ef with
  | Set_isProcessing b => {| images := images st; isProcessing := b |}
  | Set_images added =>
      {| images := (images st ++ added)%list; isProcessing := isProcessing st |}
  | _ => st
  end.

Definition replay (st : State) (log : list effect) : State :=
  fold_left step log st.

(** The requests and the notifications in a log. *)
Fixpoint posts (log : list effect) : list FormData :=
  match log with
  | [] => []
  | Axios_post fd :: log' => fd :: posts log'
  | _ :: log' => posts log'
  end.

(** [axios.post] against the route of this repository, on the codec [S]:
    the form arrives as it was built, and the promise rejects when the
    status is not a 2xx one (axios' default [validateStatus]). *)
Definition axios_error (response : NextResponse) : JsError :=
  mkError "AxiosError"
    ("Request failed with status code "
       ++ DecimalString.NilZero.string_of_int (Z.to_int (status response)))
    "axios".

Definition route_post (S : Sharp) (fd : FormData) : outcome JsonObject :=
  match result (POST S {| formData := Ok fd |}) with
  | Ok response =>
      if (200 <=? status response) && (status response <? 300)
      then Ok (body response)
      else Throw (axios_error response)
  | Throw e => Throw e
  end.

Definition tier_quality (l : CompressionLevel) : Z :=
  match l with
  | low => 80
  | medium => 60
  | high => 40
  end.

End Page.

(** A form whose [image] field is text. *)
Definition text_image_request : NextRequest :=
  {| formData := Ok [("image", EntryString "photo.jpg");
                     ("compressionLevel", EntryString "low")] |}.

(** Two stored images, for closed examples. *)
Definition stored_photo : Page.CompressedImage :=
  Page.mkImage 8 (Some (JNumber 4))
    (Some (JString "data:image/jpeg;base64,/9j//w==")) "photo.jpg"
    (Some (JString "jpeg")) false.

Definition stored_logo : Page.CompressedImage :=
  Page.mkImage 12 (Some (JNumber 5))
    (Some (JString "data:image/png;base64,iVBORw0=")) "logo.png"
    (Some (JString "png")) true.

(** The page with one image stored, nothing in progress. *)
Definition page0 : Page.State := Page.mkState [stored_logo] false.

(** Some dropped files, for closed examples. *)
Definition photo : Page.DroppedFile :=
  Page.mkDropped "photo.jpg" "image/jpeg" jpeg_bytes.
Definition anim : Page.DroppedFile :=
  Page.mkDropped "anim.gif" "image/gif" gif_bytes.
Definition notes : Page.DroppedFile :=
  Page.mkDropped "notes.txt" "text/plain" text_bytes.
Definition fake_png : Page.DroppedFile :=
  Page.mkDropped "fake.png" "image/png" text_bytes.

(** A codec that, like sharp, throws on bytes it recognises no image
    in, where [stub] resolves without a format. *)
Definition unsupported_format : JsError :=
  mkError "Error" "Input buffer contains unsupported image format"
    "sharp/lib/input.js".

Definition strict_metadata (p : Buffer) : outcome Metadata :=
  match stub_metadata p with
  | Ok md => if not_string (format md) then Throw unsupported_format else Ok md
  | Throw e => Throw e
  end.

Definition strict : Sharp :=
  {| Processor := Buffer;
     sharp := sharp stub;
     metadata := strict_metadata;
     toBuffer := stub_toBuffer |}.

(** Detection fails on a buffer: the codec throws on it, building the
    processor or reading the metadata, or it resolves without a format. *)
Definition unreadable (S : Sharp) (buffer : Buffer) : Prop :=
  (exists e, sharp S buffer = Throw e) \/
  (exists p e, sharp S buffer = Ok p /\ metadata S p = Throw e) \/
  undecodable S buffer.



(** * Properties *)

(** ** Base64 round trip *)

Module Base64Facts.
Import Base64.

Example encode_Man : encode [x4d; x61; x6e] = "TWFu".
Proof. reflexivity. Qed.

Example encode_Ma : encode [x4d; x61] = "TWE=".
Proof. reflexivity. Qed.

Example encode_M : encode [x4d] = "TQ==".
Proof. reflexivity. Qed.

Example decode_two_groups : decode "TWFuTQ==" = Some [x4d; x61; x6e; x4d].
Proof. reflexivity. Qed.

Lemma sextets_ok : forallb sextet_ok (map N.of_nat (seq 0 64)) = true.
Proof. vm_compute. reflexivity. Qed.

Lemma sextet_ok_lt n : (n < 64)%N -> sextet_ok n = true.
Proof.
  intros Hn.
  apply (proj1 (forallb_forall sextet_ok _) sextets_ok).
  apply in_map_iff. exists (N.to_nat n). split.
  - apply N2Nat.id.
  - apply in_seq. lia.
Qed.

Lemma char_sextet_char n : (n < 64)%N -> char_sextet (sextet_char n) = Some n.
Proof.
  intros Hn. pose proof (sextet_ok_lt Hn) as H.
  unfold sextet_ok in H. apply andb_prop in H. destruct H as [H _].
  destruct (char_sextet (sextet_char n)) as [m|]; [|discriminate].
  apply N.eqb_eq in H. now subst.
Qed.

Lemma sextet_char_not_pad n : (n < 64)%N -> Ascii.eqb (sextet_char n) pad = false.
Proof.
  intros Hn. pose proof (sextet_ok_lt Hn) as H.
  unfold sextet_ok in H. apply andb_prop in H. destruct H as [_ H].
  now apply negb_true_iff in H.
Qed.

Ltac euclid := zify; Z.to_euclidean_division_equations; lia.

Lemma s0_lt a : (a <= 255)%N -> (s0 a < 64)%N.
Proof. intros; unfold s0; euclid. Qed.

Lemma s1_lt a b : (b <= 255)%N -> (s1 a b < 64)%N.
Proof. intros; unfold s1; euclid. Qed.

Lemma s2_lt b c : (c <= 255)%N -> (s2 b c < 64)%N.
Proof. intros; unfold s2; euclid. Qed.

Lemma s3_lt c : (s3 c < 64)%N.
Proof. unfold s3; euclid. Qed.

Lemma b0_group a b : (b <= 255)%N -> b0 (s0 a) (s1 a b) = Byte.of_N a.
Proof. intros; unfold b0, s0, s1; f_equal; euclid. Qed.

Lemma b1_group a b c :
  (b <= 255)%N -> (c <= 255)%N -> b1 (s1 a b) (s2 b c) = Byte.of_N b.
Proof. intros; unfold b1, s1, s2; f_equal; euclid. Qed.

Lemma b2_group b c : (c <= 255)%N -> b2 (s2 b c) (s3 c) = Byte.of_N c.
Proof. intros; unfold b2, s2, s3; f_equal; euclid. Qed.

Lemma zero_le_255 : (0 <= 255)%N.
Proof. lia. Qed.

(** Lists, three elements at a time. *)
Lemma list_ind3 (A : Type) (P : list A -> Prop) :
  P [] ->
  (forall x, P [x]) ->
  (forall x y, P [x; y]) ->
  (forall x y z l, P l -> P (x :: y :: z :: l)) ->
  forall l, P l.
Proof.
  intros H0 H1 H2 H3.
  fix IH 1.
  intros [|x [|y [|z l]]].
  - exact H0.
  - apply H1.
  - apply H2.
  - apply H3, IH.
Qed.

Lemma decode_encode (bs : Buffer) : decode (encode bs) = Some bs.
Proof.
  induction bs as [|x|x y|x y z l IH] using list_ind3.
  - reflexivity.
  - pose proof (Byte.to_N_bounded x) as Hx.
    cbn [encode decode].
    rewrite (char_sextet_char (s0_lt Hx)).
    rewrite (char_sextet_char (s1_lt (Byte.to_N x) zero_le_255)).
    cbn [is_empty andb]. rewrite !Ascii.eqb_refl.
    rewrite (b0_group (Byte.to_N x) zero_le_255), Byte.of_to_N. reflexivity.
  - pose proof (Byte.to_N_bounded x) as Hx.
    pose proof (Byte.to_N_bounded y) as Hy.
    cbn [encode decode].
    rewrite (char_sextet_char (s0_lt Hx)).
    rewrite (char_sextet_char (s1_lt (Byte.to_N x) Hy)).
    cbn [is_empty andb]. rewrite Ascii.eqb_refl.
    rewrite (sextet_char_not_pad (s2_lt (Byte.to_N y) zero_le_255)).
    rewrite (char_sextet_char (s2_lt (Byte.to_N y) zero_le_255)).
    rewrite (b0_group (Byte.to_N x) Hy).
    rewrite (b1_group (Byte.to_N x) Hy zero_le_255).
    rewrite !Byte.of_to_N. reflexivity.
  - pose proof (Byte.to_N_bounded x) as Hx.
    pose proof (Byte.to_N_bounded y) as Hy.
    pose proof (Byte.to_N_bounded z) as Hz.
    cbn [encode decode].
    rewrite (char_sextet_char (s0_lt Hx)).
    rewrite (char_sextet_char (s1_lt (Byte.to_N x) Hy)).
    rewrite (sextet_char_not_pad (s3_lt (Byte.to_N z))).
    rewrite andb_false_r.
    rewrite (char_sextet_char (s2_lt (Byte.to_N y) Hz)).
    rewrite (char_sextet_char (s3_lt (Byte.to_N z))).
    rewrite (b0_group (Byte.to_N x) Hy).
    rewrite (b1_group (Byte.to_N x) Hy Hz).
    rewrite (b2_group (Byte.to_N y) Hz).
    rewrite !Byte.of_to_N.
    fold encode. fold decode. rewrite IH. reflexivity.
Qed.

End Base64Facts.

(** ** The handler follows one of its paths *)

Unset Implicit Arguments.

Section RouteFacts.

Variable S : Sharp.

Lemma process_path request fd f buffer :
  formData request = Ok fd ->
  FormData_get "image" fd = Some (EntryFile f) ->
  arrayBuffer f = Ok buffer ->
  path S request
    (try_catch
       (bind (call EvFormData (Ok fd)) (fun _ =>
        bind (call EvArrayBuffer (Ok buffer)) (fun _ =>
        process S buffer (level fd))))
       POST_catch).
Proof.
  intros Hfd Himg Hbuf. unfold process.
  destruct (sharp S buffer) as [p|e] eqn:Hp; cbn.
  2: { eapply path_sharp_throws; eauto. }
  destruct (metadata S p) as [md|e] eqn:Hmd; cbn.
  2: { eapply path_metadata_throws; eauto. }
  destruct (not_string (format md)) eqn:Hfmt; cbn.
  { eapply path_no_format; eauto. }
  destruct (format md) as [fmt|] eqn:Hf; cbn in Hfmt; [|discriminate].
  destruct (toBuffer S p (encoderFor fmt (level fd))) as [out|e] eqn:Hout;
    cbn.
  - eapply path_success; eauto.
  - eapply path_toBuffer_throws; eauto.
Qed.

Lemma POST_path request : path S request (POST S request).
Proof.
  unfold POST, POST_try.
  destruct (formData request) as [fd|e] eqn:Hfd.
  2: { cbn. eapply path_formData_throws; eauto. }
  destruct (not_entry (FormData_get "image" fd)) eqn:Hno.
  { cbn. rewrite Hno. cbn. eapply path_no_image; eauto. }
  destruct (FormData_get "image" fd) as [[f|s]|] eqn:Himg;
    cbn in Hno; try discriminate.
  2: { cbn. rewrite Himg. cbn. rewrite Hno. cbn.
       eapply path_not_a_file; eauto. }
  destruct (arrayBuffer f) as [buffer|e] eqn:Hbuf.
  2: { cbn. rewrite Himg. cbn. rewrite Hbuf. cbn.
       eapply path_arrayBuffer_throws; eauto. }
  pose proof (process_path request fd f buffer Hfd Himg Hbuf) as H.
  cbn in H. cbn. rewrite Himg. cbn. rewrite Hbuf. cbn. exact H.
Qed.

End RouteFacts.

(** Reading a run of the handler off its path: case analysis on
    [POST_path], with the facts already known about the request used to
    discard the paths it did not take. *)
Ltac same_call :=
  repeat match goal with
  | H1 : ?x = Ok _, H2 : ?x = Ok _ |- _ =>
      rewrite H1 in H2; injection H2 as H2; subst
  | H1 : ?x = Some _, H2 : ?x = Some _ |- _ =>
      rewrite H1 in H2; injection H2 as H2; subst
  | H1 : ?x = Ok _, H2 : ?x = Throw _ |- _ =>
      rewrite H1 in H2; discriminate H2
  | H1 : ?x = true, H2 : ?x = false |- _ =>
      rewrite H1 in H2; discriminate H2
  | H1 : FormData_get _ _ = Some _,
    H2 : not_entry (FormData_get _ _) = true |- _ =>
      rewrite H1 in H2; cbn in H2; try discriminate H2
  | H1 : format _ = Some _, H2 : not_string (format _) = true |- _ =>
      rewrite H1 in H2; cbn in H2
  end.

Ltac follow S request :=
  let H := fresh "Hpath" in
  let l := fresh "log" in
  let r := fresh "res" in
  pose proof (POST_path S request) as H;
  destruct (POST S request) as [l r];
  inversion H; subst; clear H; same_call; try congruence.

(** ** Quality tiers *)

(** C2. The compression level resolves to 80 for "low", 60 for "medium"
    and 40 for "high"; every other value, an absent field included,
    resolves to 60.  The switch has no failing branch: [resolveQuality]
    returns a number on every input. *)
Theorem quality_mapping :
  resolveQuality (Some (EntryString "low")) = 80 /\
  resolveQuality (Some (EntryString "medium")) = 60 /\
  resolveQuality (Some (EntryString "high")) = 40 /\
  resolveQuality None = 60 /\
  (forall t : string,
     t <> "low" -> t <> "medium" -> t <> "high" ->
     resolveQuality (Some (EntryString t)) = 60).
Proof.
  repeat split; try reflexivity.
  intros t Hlow _ Hhigh. unfold resolveQuality, strict_eq.
  apply String.eqb_neq in Hlow, Hhigh. now rewrite Hlow, Hhigh.
Qed.

Lemma quality_mapping_witness :
  resolveQuality (Some (EntryString "ultra")) = 60.
Proof.
  apply (proj2 (proj2 (proj2 (proj2 quality_mapping))) "ultra");
    discriminate.
Defined.

(** The default arm also takes a level that is not a string at all. *)
Lemma resolveQuality_default v :
  v <> Some (EntryString "low") ->
  v <> Some (EntryString "high") ->
  resolveQuality v = 60.
Proof.
  intros Hlow Hhigh. unfold resolveQuality, strict_eq.
  destruct v as [[f|t]|]; try reflexivity.
  destruct (String.eqb_spec t "low") as [->|_]; [congruence|].
  destruct (String.eqb_spec t "high") as [->|_]; [congruence|].
  reflexivity.
Qed.

Lemma resolveQuality_range v :
  resolveQuality v = 80 \/ resolveQuality v = 60 \/ resolveQuality v = 40.
Proof.
  unfold resolveQuality.
  destruct (strict_eq v "low"); [now left|].
  destruct (strict_eq v "high"); [now right; right | now right; left].
Qed.

(** ** Encoder dispatch *)

Lemma encoderFor_table fmt q :
  (fmt = "jpeg" \/ fmt = "jpg" -> encoderFor fmt q = jpeg q true) /\
  (fmt = "png" -> encoderFor fmt q = png q 9) /\
  (fmt = "webp" -> encoderFor fmt q = webp q) /\
  (fmt <> "jpeg" -> fmt <> "jpg" -> fmt <> "png" -> fmt <> "webp" ->
   encoderFor fmt q = webp q).
Proof.
  repeat split.
  - now intros [-> | ->].
  - now intros ->.
  - now intros ->.
  - intros H1 H2 H3 H4. unfold encoderFor.
    apply String.eqb_neq in H1, H2, H3, H4.
    now rewrite H1, H2, H3, H4.
Qed.



(** ** The two client errors *)




(** The branch of line 34: when the codec resolves without a format,
    the handler answers 400 with the message "Invalid image format"; no
    encoder has been called, and the body holds the error message alone. *)
Lemma no_format_branch S request fd f buffer :
  formData request = Ok fd ->
  FormData_get "image" fd = Some (EntryFile f) ->
  arrayBuffer f = Ok buffer ->
  undecodable S buffer ->
  result (POST S request) = Ok invalid_format_response /\
  status invalid_format_response = 400 /\
  body invalid_format_response = [("error", JString "Invalid image format")] /\
  encoder_calls (events (POST S request)) = [] /\
  field "compressedDataUrl" (body invalid_format_response) = None /\
  field "size" (body invalid_format_response) = None /\
  field "format" (body invalid_format_response) = None.
Proof.
  intros Hfd Himg Hbuf (p & md & Hp & Hmd & Hfmt).
  follow S request; repeat split; reflexivity.
Qed.

(** C3, where it fails.  When the codec reports bytes it cannot decode the
    way sharp does, by throwing from [metadata()], the test of line 34 is
    never reached: the throw lands in the catch block and the answer is
    500 "Failed to process image", not 400 "Invalid image format".  No
    encoder has been called. *)
Theorem undecodable_bytes_get_500 S request fd f buffer p e :
  formData request = Ok fd ->
  FormData_get "image" fd = Some (EntryFile f) ->
  arrayBuffer f = Ok buffer ->
  sharp S buffer = Ok p ->
  metadata S p = Throw e ->
  POST S request
  = ([EvFormData; EvArrayBuffer; EvSharp buffer; EvMetadata;
      EvConsoleError e],
     Ok failure_response) /\
  status failure_response = 500 /\
  body failure_response = [("error", JString "Failed to process image")] /\
  result (POST S request) <> Ok invalid_format_response /\
  encoder_calls (events (POST S request)) = [].
Proof.
  intros Hfd Himg Hbuf Hp Hmd.
  pose proof (POST_path S request) as Hpath.
  destruct (POST S request) as [l r].
  inversion Hpath; subst; clear Hpath; same_call; try congruence.
  assert (e0 = e) as -> by congruence.
  repeat split; try reflexivity. discriminate.
Qed.

Lemma undecodable_bytes_get_500_witness :
  POST strict (upload "notes.txt" text_bytes "low")
  = ([EvFormData; EvArrayBuffer; EvSharp text_bytes; EvMetadata;
      EvConsoleError unsupported_format],
     Ok failure_response) /\
  status failure_response = 500 /\
  result (POST strict (upload "notes.txt" text_bytes "low"))
  <> Ok invalid_format_response.
Proof.
  destruct (undecodable_bytes_get_500 strict
              (upload "notes.txt" text_bytes "low")
              [("image", EntryFile (mkFile "notes.txt" "image/*" (Ok text_bytes)));
               ("compressionLevel", EntryString "low")]
              (mkFile "notes.txt" "image/*" (Ok text_bytes))
              text_bytes text_bytes unsupported_format
              eq_refl eq_refl eq_refl eq_refl eq_refl)
    as (Hrun & Hst & _ & Hne & _).
  repeat split; assumption.
Defined.

(** ** Faults *)

(** A fault is exactly a [throw] out of the [try] block. *)
Lemma fault_iff_throw S request e :
  fault S request e <-> result (POST_try S request) = Throw e.
Proof.
  split.
  - intros H. unfold POST_try, process.
    destruct H; unfold level in *;
      repeat match goal with
             | H : _ = _ |- _ => rewrite H; clear H; cbn
             end; reflexivity.
  - unfold POST_try.
    destruct (formData request) as [fd|e0] eqn:Hfd; cbn.
    2: { intros [= <-]. now apply fault_formData. }
    destruct (FormData_get "image" fd) as [[f|s]|] eqn:Himg; cbn;
      try discriminate.
    2: { destruct (is_empty s) eqn:Hs; cbn; [discriminate|].
         intros [= <-]. eapply fault_not_a_file; eauto. }
    destruct (arrayBuffer f) as [buffer|e0] eqn:Hbuf; cbn.
    2: { intros [= <-]. eapply fault_arrayBuffer; eauto. }
    unfold process.
    destruct (sharp S buffer) as [p|e0] eqn:Hp; cbn.
    2: { intros [= <-]. eapply fault_sharp; eauto. }
    destruct (metadata S p) as [md|e0] eqn:Hmd; cbn.
    2: { intros [= <-]. eapply fault_metadata; eauto. }
    destruct (format md) as [fmt|] eqn:Hf; cbn; [|discriminate].
    destruct (is_empty fmt) eqn:Hne; cbn; [discriminate|].
    destruct (toBuffer S p _) as [out|e0] eqn:Hout; cbn; [discriminate|].
    intros [= <-]. eapply fault_toBuffer; eauto.
Qed.

(** C7. Whatever throws inside the handler (reading the form, buffering
    the file, building the processor, detecting the format, encoding) is
    caught: the thrown value goes to [console.error] and the client gets
    status 500 with the fixed body [{error: "Failed to process image"}],
    which does not depend on the thrown value and holds no part of a
    success. *)
Theorem fault_becomes_500 S request e :
  fault S request e ->
  result (POST S request) = Ok failure_response /\
  status failure_response = 500 /\
  body failure_response = [("error", JString "Failed to process image")] /\
  events (POST S request)
    = (events (POST_try S request) ++ [EvConsoleError e])%list /\
  field "compressedDataUrl" (body failure_response) = None /\
  field "size" (body failure_response) = None /\
  field "format" (body failure_response) = None.
Proof.
  intros H. apply fault_iff_throw in H.
  unfold POST, try_catch, result, events in *.
  destruct (POST_try S request) as [l r]. cbn in H. subst r. cbn.
  repeat split; reflexivity.
Qed.

Lemma fault_becomes_500_witness :
  result (POST stub (upload "x.png" corrupt_bytes "medium"))
    = Ok failure_response /\
  events (POST stub (upload "x.png" corrupt_bytes "medium"))
    = [EvFormData; EvArrayBuffer; EvSharp corrupt_bytes; EvMetadata;
       EvConsoleError
         (mkError "Error" "Input buffer has corrupt header"
            "sharp/lib/input.js")].
Proof.
  destruct (fault_becomes_500 stub (upload "x.png" corrupt_bytes "medium")
              (mkError "Error" "Input buffer has corrupt header"
                 "sharp/lib/input.js")) as (Hres & _ & _ & Hev & _).
  - eapply fault_metadata; reflexivity.
  - split; [exact Hres | exact Hev].
Defined.

(** ** Totality *)

(** C10. The handler answers every request, and never throws: the answer
    is a 200 whose body holds [compressedDataUrl], [size] and [format], or
    a 400 or a 500 whose body holds an [error] message alone. *)
Theorem POST_total S request :
  exists response,
    result (POST S request) = Ok response /\
    ((status response = 200 /\
      exists url size fmt,
        body response =
          [("compressedDataUrl", JString url); ("size", JNumber size);
           ("format", JString fmt)]) \/
     (status response = 400 /\
      exists msg, body response = [("error", JString msg)]) \/
     (status response = 500 /\
      exists msg, body response = [("error", JString msg)])).
Proof.
  pose proof (POST_path S request) as Hpath.
  destruct (POST S request) as [l r].
  inversion Hpath; subst; clear Hpath; eexists; (split; [reflexivity|]);
    cbn; eauto 10.
Qed.

(** The status tells the three kinds of answer apart. *)
Lemma status_200_success S request response :
  result (POST S request) = Ok response ->
  status response = 200 ->
  exists fd f buffer p md fmt processedBuffer,
    formData request = Ok fd /\
    FormData_get "image" fd = Some (EntryFile f) /\
    arrayBuffer f = Ok buffer /\
    sharp S buffer = Ok p /\
    metadata S p = Ok md /\
    format md = Some fmt /\
    toBuffer S p (encoderFor fmt (level fd)) = Ok processedBuffer /\
    events (POST S request)
      = [EvFormData; EvArrayBuffer; EvSharp buffer; EvMetadata;
         EvEncode (encoderFor fmt (level fd))] /\
    response = success_response fmt processedBuffer.
Proof.
  intros Hres Hst.
  pose proof (POST_path S request) as Hpath.
  destruct (POST S request) as [l r]. cbn in Hres. subst r.
  inversion Hpath; subst; clear Hpath; cbn in Hst; try discriminate Hst.
  exists fd, f, buffer, p, md, fmt, processedBuffer.
  repeat (split; [eassumption|]). split; reflexivity.
Qed.

(** ** The success response *)

(** C6, where it fails.  A success response comes from the processor
    [sharp] built on the uploaded bytes and from its one encoder call:
    [size] is the number of bytes that call returned, and
    [compressedDataUrl] is "data:image/", a subtype, ";base64," and the
    base64 text of exactly those bytes, which decodes back to them.  The
    subtype, though, is the detected format, not the encoding produced:
    the two agree for jpeg, png and webp input and for no other, so for a
    gif the reference reads [data:image/gif] over webp bytes. *)
Theorem data_reference_labels_source S request response :
  result (POST S request) = Ok response ->
  status response = 200 ->
  exists fd f buffer p md fmt processedBuffer,
    formData request = Ok fd /\
    FormData_get "image" fd = Some (EntryFile f) /\
    arrayBuffer f = Ok buffer /\
    sharp S buffer = Ok p /\
    metadata S p = Ok md /\
    format md = Some fmt /\
    let opts := encoderFor fmt (level fd) in
    encoder_calls (events (POST S request)) = [opts] /\
    toBuffer S p opts = Ok processedBuffer /\
    field "size" (body response)
      = Some (JNumber (Z.of_nat (List.length processedBuffer))) /\
    field "compressedDataUrl" (body response)
      = Some (JString ("data:image/" ++ fmt ++ ";base64,"
                         ++ Base64.encode processedBuffer)) /\
    Base64.decode (Base64.encode processedBuffer) = Some processedBuffer /\
    (output_format opts = fmt <->
     fmt = "jpeg" \/ fmt = "png" \/ fmt = "webp").
Proof.
  intros Hres Hst.
  destruct (status_200_success S request response Hres Hst)
    as (fd & f & buffer & p & md & fmt & out & Hfd & Himg & Hbuf & Hp & Hmd
        & Hf & Hout & Hev & ->).
  exists fd, f, buffer, p, md, fmt, out.
  repeat (split; [assumption|]). cbv zeta. rewrite Hev.
  repeat split; try reflexivity; try assumption.
  - apply Base64Facts.decode_encode.
  - unfold encoderFor.
    destruct (String.eqb_spec fmt "jpeg") as [->|_]; [now left|].
    destruct (String.eqb_spec fmt "jpg") as [->|_]; [discriminate|].
    destruct (String.eqb_spec fmt "png") as [->|_]; [now right; left|].
    destruct (String.eqb_spec fmt "webp") as [->|_]; [now right; right|].
    cbn. intros <-. now right; right.
  - now intros [-> | [-> | ->]].
Qed.

Lemma data_reference_labels_source_witness :
  exists fd f buffer p md fmt processedBuffer,
    formData (upload "anim.gif" gif_bytes "medium") = Ok fd /\
    FormData_get "image" fd = Some (EntryFile f) /\
    arrayBuffer f = Ok buffer /\
    sharp stub buffer = Ok p /\
    metadata stub p = Ok md /\
    format md = Some fmt /\
    let opts := encoderFor fmt (level fd) in
    encoder_calls (events (POST stub (upload "anim.gif" gif_bytes "medium")))
      = [opts] /\
    toBuffer stub p opts = Ok processedBuffer /\
    field "size" (body gif_medium_response)
      = Some (JNumber (Z.of_nat (List.length processedBuffer))) /\
    field "compressedDataUrl" (body gif_medium_response)
      = Some (JString ("data:image/" ++ fmt ++ ";base64,"
                         ++ Base64.encode processedBuffer)) /\
    Base64.decode (Base64.encode processedBuffer) = Some processedBuffer /\
    (output_format opts = fmt <->
     fmt = "jpeg" \/ fmt = "png" \/ fmt = "webp").
Proof.
  apply (data_reference_labels_source stub
           (upload "anim.gif" gif_bytes "medium") gif_medium_response);
    reflexivity.
Defined.

(** The gif of the example: the reference says gif, the bytes are webp. *)
Example gif_reference_mislabelled :
  field "compressedDataUrl" (body gif_medium_response)
  = Some (JString (dataUrl "gif" [x52; x49; x46; x46; x47])) /\
  encoder_calls (events (POST stub (upload "anim.gif" gif_bytes "medium")))
  = [webp 60] /\
  output_format (webp 60) <> "gif".
Proof. repeat split. discriminate. Qed.

(** ** Determinism *)

(** C8. The answer is a function of the uploaded bytes and of the
    compression level, the codec being a function: two requests that agree
    on both get the same answer after the same calls, whatever else
    differs between them (file name, declared type, other fields, their
    order) and whatever was served before.  In particular both report the
    same format.  The handler reads and writes nothing outside its own
    body, which is why its model takes the request and nothing else. *)
Theorem POST_deterministic S r1 r2 fd1 fd2 f1 f2 :
  formData r1 = Ok fd1 ->
  formData r2 = Ok fd2 ->
  FormData_get "image" fd1 = Some (EntryFile f1) ->
  FormData_get "image" fd2 = Some (EntryFile f2) ->
  arrayBuffer f1 = arrayBuffer f2 ->
  FormData_get "compressionLevel" fd1 = FormData_get "compressionLevel" fd2 ->
  POST S r1 = POST S r2 /\
  (forall resp1 resp2,
     result (POST S r1) = Ok resp1 ->
     result (POST S r2) = Ok resp2 ->
     field "format" (body resp1) = field "format" (body resp2)).
Proof.
  intros H1 H2 Hi1 Hi2 Hbytes Hlevel.
  assert (Heq : POST S r1 = POST S r2).
  { unfold POST, POST_try.
    rewrite H1, H2. cbn. rewrite Hi1, Hi2. cbn.
    rewrite Hbytes, Hlevel. reflexivity. }
  split; [exact Heq|].
  intros resp1 resp2 Hr1 Hr2. rewrite Heq in Hr1.
  rewrite Hr1 in Hr2. now injection Hr2 as ->.
Qed.

Lemma POST_deterministic_witness :
  POST stub (upload "a.jpg" jpeg_bytes "high")
    = POST stub (upload_again "b.jpeg" jpeg_bytes "high").
Proof.
  apply (POST_deterministic stub
           (upload "a.jpg" jpeg_bytes "high")
           (upload_again "b.jpeg" jpeg_bytes "high")
           [("image", EntryFile (mkFile "a.jpg" "image/*" (Ok jpeg_bytes)));
            ("compressionLevel", EntryString "high")]
           [("compressionLevel", EntryString "high");
            ("note", EntryString "second attempt");
            ("image", EntryFile (mkFile "b.jpeg" "image/jpeg" (Ok jpeg_bytes)))]
           (mkFile "a.jpg" "image/*" (Ok jpeg_bytes))
           (mkFile "b.jpeg" "image/jpeg" (Ok jpeg_bytes)));
    reflexivity.
Defined.

(** ** Reported format *)

(** For jpeg, png and webp input the encoder called produces the detected
    format, which is also the format the response reports. *)
Lemma format_fidelity S request response :
  result (POST S request) = Ok response ->
  status response = 200 ->
  exists opts fmt,
    encoder_calls (events (POST S request)) = [opts] /\
    field "format" (body response) = Some (JString fmt) /\
    (fmt = "jpeg" \/ fmt = "png" \/ fmt = "webp" -> output_format opts = fmt).
Proof.
  intros Hres Hst.
  destruct (status_200_success S request response Hres Hst)
    as (fd & f & buffer & p & md & fmt & out & _ & _ & _ & _ & _ & _
        & _ & Hev & ->).
  exists (encoderFor fmt (level fd)), fmt. rewrite Hev.
  repeat split. now intros [-> | [-> | ->]].
Qed.

(** C1, where it fails.  When the detected format is none of jpeg, jpg,
    png and webp, the encoder called is the webp one, and yet the
    response reports the detected format, in its [format] field and in
    the MIME type of the data reference alike. *)
Theorem other_format_reported_as_source
  S request fd f buffer p md fmt processedBuffer :
  formData request = Ok fd ->
  FormData_get "image" fd = Some (EntryFile f) ->
  arrayBuffer f = Ok buffer ->
  sharp S buffer = Ok p ->
  metadata S p = Ok md ->
  format md = Some fmt ->
  is_empty fmt = false ->
  fmt <> "jpeg" -> fmt <> "jpg" -> fmt <> "png" -> fmt <> "webp" ->
  toBuffer S p (webp (level fd)) = Ok processedBuffer ->
  exists response,
    result (POST S request) = Ok response /\
    status response = 200 /\
    encoder_calls (events (POST S request)) = [webp (level fd)] /\
    output_format (webp (level fd)) = "webp" /\
    field "format" (body response) = Some (JString fmt) /\
    field "format" (body response) <> Some (JString "webp") /\
    field "compressedDataUrl" (body response)
      = Some (JString ("data:image/" ++ fmt ++ ";base64,"
                         ++ Base64.encode processedBuffer)).
Proof.
  intros Hfd Himg Hbuf Hp Hmd Hf Hne H1 H2 H3 H4 Hout.
  assert (Henc : encoderFor fmt (level fd) = webp (level fd))
    by now apply encoderFor_table.
  pose proof (POST_path S request) as Hpath.
  destruct (POST S request) as [l r].
  inversion Hpath; subst; clear Hpath; same_call; try congruence;
    try (cbn in *; congruence).
  rewrite Henc in *. same_call.
  eexists. split; [reflexivity|]. cbn.
  repeat split; try reflexivity. congruence.
Qed.

Lemma other_format_reported_as_source_witness :
  exists response,
    result (POST stub (upload "anim.gif" gif_bytes "medium")) = Ok response /\
    status response = 200 /\
    encoder_calls (events (POST stub (upload "anim.gif" gif_bytes "medium")))
      = [webp 60] /\
    output_format (webp 60) = "webp" /\
    field "format" (body response) = Some (JString "gif") /\
    field "format" (body response) <> Some (JString "webp") /\
    field "compressedDataUrl" (body response)
      = Some (JString "data:image/gif;base64,UklGRkc=").
Proof.
  apply (other_format_reported_as_source stub
           (upload "anim.gif" gif_bytes "medium")
           [("image", EntryFile (mkFile "anim.gif" "image/*" (Ok gif_bytes)));
            ("compressionLevel", EntryString "medium")]
           (mkFile "anim.gif" "image/*" (Ok gif_bytes))
           gif_bytes gif_bytes
           (mkMetadata (Some "gif") (Some 1) (Some 1)) "gif"
           [x52; x49; x46; x46; x47]);
    try reflexivity; discriminate.
Defined.

Example gif_upload_runs :
  POST stub (upload "anim.gif" gif_bytes "medium")
    = ([EvFormData; EvArrayBuffer; EvSharp gif_bytes; EvMetadata;
        EvEncode (webp 60)],
       Ok gif_medium_response).
Proof. reflexivity. Qed.

(** * Further properties of the route *)

(** ** Which answer, and when *)

(** The calls to the framework and to the codec come in one order, each
    at most once and none skipped: the form is always read, and the
    encoder runs only after the bytes were buffered, handed to [sharp]
    and inspected, in that order. *)
Theorem calls_in_order S request :
  exists buffer opts n,
    (1 <= n)%nat /\
    filter (fun ev => match ev with EvConsoleError _ => false | _ => true end)
      (events (POST S request))
    = firstn n [EvFormData; EvArrayBuffer; EvSharp buffer; EvMetadata;
                EvEncode opts].
Proof.
  pose proof (POST_path S request) as Hpath.
  destruct (POST S request) as [l r].
  inversion Hpath; subst; clear Hpath; cbn.
  - exists [], (webp 0), 1%nat. split; [lia | reflexivity].
  - exists [], (webp 0), 1%nat. split; [lia | reflexivity].
  - exists [], (webp 0), 1%nat. split; [lia | reflexivity].
  - exists [], (webp 0), 2%nat. split; [lia | reflexivity].
  - exists buffer, (webp 0), 3%nat. split; [lia | reflexivity].
  - exists buffer, (webp 0), 4%nat. split; [lia | reflexivity].
  - exists buffer, (webp 0), 4%nat. split; [lia | reflexivity].
  - exists buffer, (encoderFor fmt (level fd)), 5%nat.
    split; [lia | reflexivity].
  - exists buffer, (encoderFor fmt (level fd)), 5%nat.
    split; [lia | reflexivity].
Qed.

(** The answer is the 500 one exactly when something threw, and the thrown
    value is what [console.error] gets, once, as the last thing the
    handler does. *)
Theorem server_error_iff_fault S request :
  ((exists e, fault S request e) <->
   result (POST S request) = Ok failure_response) /\
  (forall e, fault S request e <->
             In (EvConsoleError e) (events (POST S request))) /\
  (forall e, fault S request e ->
             exists calls,
               events (POST S request) = (calls ++ [EvConsoleError e])%list /\
               forall e', ~ In (EvConsoleError e') calls).
Proof.
  assert (Hrun : forall e, fault S request e ->
            POST S request
            = ((events (POST_try S request) ++ [EvConsoleError e])%list,
               Ok failure_response)).
  { intros e He. apply fault_iff_throw in He.
    unfold POST, try_catch, result, events in *.
    destruct (POST_try S request) as [l r]. cbn in He. now subst r. }
  assert (Hquiet : forall e', ~ In (EvConsoleError e')
                                 (events (POST_try S request))).
  { intros e'. unfold POST_try, process, events.
    destruct (formData request) as [fd|e0]; cbn;
      [|intros [H|[]]; discriminate].
    destruct (not_entry (FormData_get "image" fd)); cbn;
      [intros [H|[]]; discriminate|].
    destruct (FormData_get "image" fd) as [[f|s]|]; cbn;
      try (intros [H|[]]; discriminate).
    destruct (arrayBuffer f) as [buffer|e0]; cbn;
      [|intros [H|[H|[]]]; discriminate].
    destruct (sharp S buffer) as [p|e0]; cbn;
      [|intros [H|[H|[H|[]]]]; discriminate].
    destruct (metadata S p) as [md|e0]; cbn;
      [|intros [H|[H|[H|[H|[]]]]]; discriminate].
    destruct (not_string (format md)); cbn;
      [intros [H|[H|[H|[H|[]]]]]; discriminate|].
    destruct (format md) as [fmt|]; cbn;
      [|intros [H|[H|[H|[H|[]]]]]; discriminate].
    destruct (toBuffer S p _); cbn;
      intros [H|[H|[H|[H|[H|[]]]]]]; discriminate. }
  assert (Hnofault : (forall e, ~ fault S request e) ->
            POST S request = POST_try S request /\
            result (POST S request) <> Ok failure_response).
  { intros Hno. unfold POST, try_catch.
    destruct (POST_try S request) as [l [resp|e]] eqn:Htry.
    - split; [reflexivity|]. cbn. intros [= ->].
      pose proof (POST_path S request) as Hpath.
      unfold POST, try_catch in Hpath. rewrite Htry in Hpath.
      inversion Hpath; subst; eapply Hno; econstructor; eassumption.
    - exfalso. apply (Hno e). apply fault_iff_throw.
      unfold result. now rewrite Htry. }
  repeat split.
  - intros [e He]. now rewrite (Hrun e He).
  - intros Hres.
    destruct (POST_try S request) as [l [resp|e]] eqn:Htry.
    + exfalso.
      assert (Hno : forall e, ~ fault S request e).
      { intros e He. apply fault_iff_throw in He.
        unfold result in He. rewrite Htry in He. discriminate. }
      now apply Hnofault in Hno.
    + exists e. apply fault_iff_throw. unfold result. now rewrite Htry.
  - intros He. rewrite (Hrun e He). cbn. apply in_or_app. right. now left.
  - intros Hin.
    destruct (POST_try S request) as [l [resp|e0]] eqn:Htry.
    + exfalso. apply (Hquiet e).
      unfold POST, try_catch in Hin. rewrite Htry in Hin. exact Hin.
    + assert (He0 : fault S request e0).
      { apply fault_iff_throw. unfold result. now rewrite Htry. }
      rewrite (Hrun e0 He0) in Hin. cbn in Hin.
      apply in_app_or in Hin. destruct Hin as [Hin|[Hin|[]]].
      * exfalso. apply (Hquiet e). exact Hin.
      * now injection Hin as <-.
  - intros e He. exists (events (POST_try S request)).
    rewrite (Hrun e He). split; [reflexivity | exact Hquiet].
Qed.

(** A 400 has one of two causes, told apart by the message: the form has
    no image, or the detector found no format in the uploaded bytes. *)
Theorem client_error_causes S request response :
  result (POST S request) = Ok response ->
  status response = 400 ->
  (response = no_image_response /\
   exists fd,
     formData request = Ok fd /\
     not_entry (FormData_get "image" fd) = true) \/
  (response = invalid_format_response /\
   exists fd f buffer,
     formData request = Ok fd /\
     FormData_get "image" fd = Some (EntryFile f) /\
     arrayBuffer f = Ok buffer /\
     undecodable S buffer).
Proof.
  intros Hres Hst.
  pose proof (POST_path S request) as Hpath.
  destruct (POST S request) as [l r]. cbn in Hres. subst r.
  inversion Hpath; subst; clear Hpath; cbn in Hst; try discriminate Hst.
  - left. split; [reflexivity|]. now exists fd.
  - right. split; [reflexivity|]. exists fd, f, buffer.
    repeat (split; [assumption|]). now exists p, md.
Qed.

Lemma client_error_causes_witness :
  (invalid_format_response = no_image_response /\
   exists fd,
     formData (upload "notes.txt" text_bytes "low") = Ok fd /\
     not_entry (FormData_get "image" fd) = true) \/
  (invalid_format_response = invalid_format_response /\
   exists fd f buffer,
     formData (upload "notes.txt" text_bytes "low") = Ok fd /\
     FormData_get "image" fd = Some (EntryFile f) /\
     arrayBuffer f = Ok buffer /\
     undecodable stub buffer).
Proof.
  apply (client_error_causes stub (upload "notes.txt" text_bytes "low")
           invalid_format_response); reflexivity.
Defined.

(** A text value under [image] passes the guard of line 10 (it is
    truthy) and fails at [image.arrayBuffer()]: the answer is the 500 one,
    not a 400, and the codec is never reached. *)
Theorem text_image_is_server_error S request fd s :
  formData request = Ok fd ->
  FormData_get "image" fd = Some (EntryString s) ->
  s <> EmptyString ->
  POST S request
  = ([EvFormData; EvConsoleError not_a_function], Ok failure_response).
Proof.
  intros Hfd Himg Hs.
  assert (Hne : is_empty s = false) by (destruct s; [congruence | reflexivity]).
  pose proof (POST_path S request) as Hpath.
  destruct (POST S request) as [l r].
  inversion Hpath; subst; clear Hpath; same_call; congruence.
Qed.

Lemma text_image_is_server_error_witness :
  POST stub text_image_request
  = ([EvFormData; EvConsoleError not_a_function], Ok failure_response).
Proof.
  apply (text_image_is_server_error stub text_image_request
           [("image", EntryString "photo.jpg");
            ("compressionLevel", EntryString "low")] "photo.jpg");
    try reflexivity; discriminate.
Defined.

(** The compression level reaches the encoder and nothing before it: two
    requests with the same [image] entry make the same calls up to and
    including detection, are rejected with a 400 together or not at all,
    and, where both succeed, report the same format. *)
Theorem level_only_reaches_encoder S r1 r2 fd1 fd2 :
  formData r1 = Ok fd1 ->
  formData r2 = Ok fd2 ->
  FormData_get "image" fd1 = FormData_get "image" fd2 ->
  firstn 4 (events (POST S r1)) = firstn 4 (events (POST S r2)) /\
  (forall resp1 resp2,
     result (POST S r1) = Ok resp1 ->
     result (POST S r2) = Ok resp2 ->
     (status resp1 = 400 <-> status resp2 = 400) /\
     (status resp1 = 400 -> resp1 = resp2) /\
     (status resp1 = 200 -> status resp2 = 200 ->
      field "format" (body resp1) = field "format" (body resp2))).
Proof.
  intros H1 H2 Himg.
  pose proof (POST_path S r1) as P1. pose proof (POST_path S r2) as P2.
  destruct (POST S r1) as [l1 o1]. destruct (POST S r2) as [l2 o2].
  inversion P1; subst; clear P1; same_call; try congruence;
    inversion P2; subst; clear P2; same_call; try congruence;
    try (rewrite Himg in *; same_call; try congruence);
    repeat match goal with
           | Ha : ?x = Throw _, Hb : ?x = Throw _ |- _ =>
               rewrite Ha in Hb; injection Hb as Hb; subst
           end;
    (split; [reflexivity|]);
    intros resp1 resp2 [= <-] [= <-]; cbn;
    repeat split; try congruence; try discriminate; try reflexivity.
Qed.

Lemma level_only_reaches_encoder_witness :
  firstn 4 (events (POST stub (upload "a.jpg" jpeg_bytes "low")))
  = firstn 4 (events (POST stub (upload "a.jpg" jpeg_bytes "high"))).
Proof.
  apply (level_only_reaches_encoder stub
           (upload "a.jpg" jpeg_bytes "low") (upload "a.jpg" jpeg_bytes "high")
           [("image", EntryFile (mkFile "a.jpg" "image/*" (Ok jpeg_bytes)));
            ("compressionLevel", EntryString "low")]
           [("image", EntryFile (mkFile "a.jpg" "image/*" (Ok jpeg_bytes)));
            ("compressionLevel", EntryString "high")]);
    reflexivity.
Defined.

(** ** The data reference *)

Lemma length_append (a b : string) :
  String.length (a ++ b) = (String.length a + String.length b)%nat.
Proof. induction a as [|c a IH]; cbn; [reflexivity | now rewrite IH]. Qed.

Lemma append_cancel (a x y : string) : a ++ x = a ++ y -> x = y.
Proof.
  induction a as [|c a IH]; cbn; intros H; [exact H|].
  injection H as H. now apply IH.
Qed.

Lemma encode_length (bs : Buffer) :
  String.length (Base64.encode bs) = (4 * ((List.length bs + 2) / 3))%nat.
Proof.
  induction bs as [|x|x y|x y z l IH] using Base64Facts.list_ind3;
    try reflexivity.
  cbn [Base64.encode String.length List.length]. rewrite IH.
  replace (Datatypes.S (Datatypes.S (Datatypes.S (List.length l))) + 2)%nat
    with (1 * 3 + (List.length l + 2))%nat by lia.
  rewrite Nat.div_add_l by discriminate. lia.
Qed.

(** The data reference of a given format determines the encoded bytes:
    two different encoder outputs never share one. *)
Theorem dataUrl_injective fmt (b1 b2 : Buffer) :
  dataUrl fmt b1 = dataUrl fmt b2 -> b1 = b2.
Proof.
  unfold dataUrl. intros H.
  apply (append_cancel "data:image/") in H.
  apply append_cancel in H.
  apply (append_cancel ";base64,") in H.
  assert (Hd : Base64.decode (Base64.encode b1)
               = Base64.decode (Base64.encode b2)) by now rewrite H.
  rewrite !Base64Facts.decode_encode in Hd. now injection Hd.
Qed.

Lemma dataUrl_injective_witness : [xff; xd8] = [xff; xd8].
Proof.
  apply (dataUrl_injective "jpeg" [xff; xd8] [xff; xd8]). reflexivity.
Defined.

(** The length of the data reference follows from the format name and
    the reported size: 19 characters of framing, the format, and four
    characters for every three bytes, the last group padded. *)
Theorem dataUrl_length S request response :
  result (POST S request) = Ok response ->
  status response = 200 ->
  exists fmt n url,
    field "format" (body response) = Some (JString fmt) /\
    field "size" (body response) = Some (JNumber (Z.of_nat n)) /\
    field "compressedDataUrl" (body response) = Some (JString url) /\
    String.length url
    = (19 + String.length fmt + 4 * ((n + 2) / 3))%nat.
Proof.
  intros Hres Hst.
  destruct (status_200_success S request response Hres Hst)
    as (fd & f & buffer & p & md & fmt & out & _ & _ & _ & _ & _ & _
        & _ & _ & ->).
  exists fmt, (List.length out), (dataUrl fmt out).
  repeat split. unfold dataUrl.
  rewrite !length_append, encode_length. cbn. lia.
Qed.

Lemma dataUrl_length_witness :
  exists fmt n url,
    field "format" (body jpeg_medium_response) = Some (JString fmt) /\
    field "size" (body jpeg_medium_response) = Some (JNumber (Z.of_nat n)) /\
    field "compressedDataUrl" (body jpeg_medium_response)
      = Some (JString url) /\
    String.length url
    = (19 + String.length fmt + 4 * ((n + 2) / 3))%nat.
Proof.
  apply (dataUrl_length stub (upload "a.jpg" jpeg_bytes "medium")
           jpeg_medium_response); reflexivity.
Defined.

(** * Properties of the page *)

Module PageFacts.
Import Page.

(** ** The list handlers *)

Lemma map_from_length {A B} (f : A -> nat -> B) i l :
  List.length (map_from f i l) = List.length l.
Proof.
  revert i. induction l as [|x l IH]; intros i; cbn; [reflexivity|].
  now rewrite IH.
Qed.

Lemma map_from_nth {A B} (f : A -> nat -> B) i l j :
  nth_error (map_from f i l) j
  = option_map (fun x => f x (i + j)%nat) (nth_error l j).
Proof.
  revert i j. induction l as [|x l IH]; intros i [|j]; cbn; try reflexivity.
  - now rewrite Nat.add_0_r.
  - rewrite IH. now rewrite Nat.add_succ_r.
Qed.

Lemma filter_from_past {A} (index i : nat) (l : list A) :
  (index < i)%nat ->
  filter_from (fun _ k => negb (Nat.eqb k index)) i l = l.
Proof.
  revert i. induction l as [|x l IH]; intros i Hi; cbn; [reflexivity|].
  destruct (Nat.eqb_spec i index) as [->|_]; [lia|]. cbn.
  now rewrite IH by lia.
Qed.

Lemma filter_from_cut {A} (index i : nat) (l : list A) :
  (i <= index)%nat ->
  filter_from (fun _ k => negb (Nat.eqb k index)) i l
  = (firstn (index - i) l ++ skipn (Datatypes.S (index - i)) l)%list.
Proof.
  revert i. induction l as [|x l IH]; intros i Hi; cbn.
  - now rewrite firstn_nil.
  - destruct (Nat.eqb_spec i index) as [->|Hne]; cbn.
    + rewrite Nat.sub_diag. cbn. apply filter_from_past. lia.
    + rewrite IH by lia.
      replace (index - i)%nat with (Datatypes.S (index - Datatypes.S i))
        by lia.
      reflexivity.
Qed.

Lemma togglePreview_nth index prev j :
  nth_error (togglePreview index prev) j
  = option_map (fun img => if Nat.eqb j index then flipped img else img)
      (nth_error prev j).
Proof. unfold togglePreview. now rewrite map_from_nth. Qed.

Lemma flipped_flipped img : flipped (flipped img) = img.
Proof. destruct img. unfold flipped. cbn. now rewrite negb_involutive. Qed.

(** [togglePreview] touches one flag and nothing else: the list keeps
    its length, every other position keeps its image, and the image at
    [index] keeps its name, sizes, data reference and format while its
    [previewVisible] is negated. *)
Theorem togglePreview_one_flag index prev :
  List.length (togglePreview index prev) = List.length prev /\
  (forall j, j <> index ->
     nth_error (togglePreview index prev) j = nth_error prev j) /\
  (forall img, nth_error prev index = Some img ->
     exists img',
       nth_error (togglePreview index prev) index = Some img' /\
       previewVisible img' = negb (previewVisible img) /\
       name img' = name img /\
       originalSize img' = originalSize img /\
       compressedSize img' = compressedSize img /\
       compressedDataUrl img' = compressedDataUrl img /\
       format img' = format img).
Proof.
  unfold togglePreview. repeat split.
  - apply map_from_length.
  - intros j Hj. rewrite map_from_nth. cbn.
    destruct (nth_error prev j) as [img|]; cbn; [|reflexivity].
    destruct (Nat.eqb_spec j index); [contradiction | reflexivity].
  - intros img Himg. exists (flipped img).
    rewrite map_from_nth, Himg. cbn. rewrite Nat.eqb_refl.
    repeat split.
Qed.

(** Toggling the same image twice gives the list back. *)
Theorem togglePreview_involutive index prev :
  togglePreview index (togglePreview index prev) = prev.
Proof.
  apply nth_error_ext. intros j. unfold togglePreview.
  rewrite !map_from_nth. cbn.
  destruct (nth_error prev j) as [img|]; cbn; [|reflexivity].
  destruct (Nat.eqb j index); [now rewrite flipped_flipped | reflexivity].
Qed.

(** An index past the end of the list changes nothing. *)
Theorem togglePreview_out_of_range index prev :
  (List.length prev <= index)%nat -> togglePreview index prev = prev.
Proof.
  intros Hlen. apply nth_error_ext. intros j. unfold togglePreview.
  rewrite map_from_nth. cbn.
  destruct (nth_error prev j) as [img|] eqn:Hj; cbn; [|reflexivity].
  destruct (Nat.eqb_spec j index) as [->|_]; [|reflexivity].
  apply nth_error_None in Hlen. congruence.
Qed.

Lemma togglePreview_out_of_range_witness :
  togglePreview 2 [stored_photo; stored_logo] = [stored_photo; stored_logo].
Proof.
  apply (togglePreview_out_of_range 2 [stored_photo; stored_logo]).
  cbn. lia.
Defined.

(** Toggles of two images can be done in either order. *)
Theorem togglePreview_commute i j prev :
  togglePreview i (togglePreview j prev)
  = togglePreview j (togglePreview i prev).
Proof.
  apply nth_error_ext. intros k. unfold togglePreview.
  rewrite !map_from_nth. cbn.
  destruct (nth_error prev k) as [img|]; cbn; [|reflexivity].
  destruct (Nat.eqb k i), (Nat.eqb k j); reflexivity.
Qed.

Lemma deleteImage_fst index prev :
  fst (deleteImage index prev)
  = (firstn index prev ++ skipn (Datatypes.S index) prev)%list.
Proof.
  unfold deleteImage. cbn [fst].
  rewrite filter_from_cut by lia. now rewrite Nat.sub_0_r.
Qed.

Lemma deleteImage_nth index prev j :
  nth_error (fst (deleteImage index prev)) j
  = nth_error prev (if (j <? index)%nat then j else Datatypes.S j).
Proof.
  rewrite deleteImage_fst.
  rewrite nth_error_app, nth_error_firstn, nth_error_skipn.
  rewrite length_firstn.
  destruct (Nat.ltb_spec j index) as [Hlt|Hge].
  - destruct (Nat.ltb_spec j (Nat.min index (List.length prev)));
      [reflexivity|].
    transitivity (@None CompressedImage);
      [|symmetry]; apply nth_error_None; lia.
  - destruct (Nat.ltb_spec j (Nat.min index (List.length prev))); [lia|].
    destruct (Nat.le_ge_cases index (List.length prev)) as [Hin|Hout].
    + f_equal. lia.
    + transitivity (@None CompressedImage);
        [|symmetry]; apply nth_error_None; lia.
Qed.

(** [deleteImage] cuts out the image at [index] and keeps the others as
    they are and in their order; the list is one shorter when [index] is
    in range. *)
Theorem deleteImage_cuts index prev :
  fst (deleteImage index prev)
  = (firstn index prev ++ skipn (Datatypes.S index) prev)%list /\
  (forall j,
     nth_error (fst (deleteImage index prev)) j
     = nth_error prev (if (j <? index)%nat then j else Datatypes.S j)) /\
  List.length (fst (deleteImage index prev))
  = (if (index <? List.length prev)%nat
     then List.length prev - 1 else List.length prev)%nat.
Proof.
  repeat split.
  - apply deleteImage_fst.
  - apply deleteImage_nth.
  - rewrite deleteImage_fst, length_app, length_firstn, length_skipn.
    destruct (Nat.ltb_spec index (List.length prev)); lia.
Qed.

(** With an index past the end nothing is removed, and the page still
    announces a removal. *)
Theorem deleteImage_out_of_range index prev :
  (List.length prev <= index)%nat ->
  deleteImage index prev
  = (prev, [Toast_success "Image removed successfully!"]).
Proof.
  intros Hlen. unfold deleteImage. f_equal.
  rewrite filter_from_cut by lia. rewrite Nat.sub_0_r.
  rewrite firstn_all2 by lia. rewrite skipn_all2 by lia.
  apply app_nil_r.
Qed.

Lemma deleteImage_out_of_range_witness :
  deleteImage 5 [stored_photo; stored_logo]
  = ([stored_photo; stored_logo],
     [Toast_success "Image removed successfully!"]).
Proof.
  apply (deleteImage_out_of_range 5 [stored_photo; stored_logo]).
  cbn. lia.
Defined.

(** Deleting an image leaves the previews of the others alone: toggling
    after the deletion is toggling the same image before it, at the
    position it had then. *)
Theorem toggle_after_delete i j prev :
  togglePreview j (fst (deleteImage i prev))
  = fst (deleteImage i
           (togglePreview (if (j <? i)%nat then j else Datatypes.S j) prev)).
Proof.
  apply nth_error_ext. intros k.
  rewrite deleteImage_nth, !togglePreview_nth, deleteImage_nth.
  destruct (nth_error prev (if (k <? i)%nat then k else Datatypes.S k))
    as [img|]; cbn [option_map]; [|reflexivity].
  f_equal.
  destruct (Nat.ltb_spec k i), (Nat.ltb_spec j i);
    repeat match goal with
           | |- context [Nat.eqb ?a ?b] => destruct (Nat.eqb_spec a b)
           end; try reflexivity; lia.
Qed.

End PageFacts.

(** ** Dropping files *)

Module OnDropFacts.
Import Page.

Section Generic.

Variable post : FormData -> outcome JsonObject.
Variable level : CompressionLevel.

Lemma posts_app l1 l2 : posts (l1 ++ l2) = (posts l1 ++ posts l2)%list.
Proof.
  induction l1 as [|ef l1 IH]; cbn; [reflexivity|].
  destruct ef; cbn; now rewrite IH.
Qed.

Lemma replay_app st l1 l2 : replay (replay st l1) l2 = replay st (l1 ++ l2).
Proof. unfold replay. now rewrite fold_left_app. Qed.

(** The loop itself writes no state. *)
Lemma compress_each_quiet files acc st :
  replay st (fst (compress_each post level files acc)) = st.
Proof.
  revert acc. induction files as [|f rest IH]; intros acc; cbn;
    [reflexivity|].
  destruct (is_image f); cbn.
  - destruct (post (form level f)) as [data|e]; [|reflexivity].
    specialize (IH (acc ++ [entry f data])%list).
    destruct (compress_each post level rest _) as [l r]. exact IH.
  - specialize (IH acc).
    destruct (compress_each post level rest acc) as [l r]. exact IH.
Qed.

Lemma compress_each_posts files acc fd :
  In fd (posts (fst (compress_each post level files acc))) ->
  exists f, In f files /\ is_image f = true /\ fd = form level f.
Proof.
  revert acc. induction files as [|f rest IH]; intros acc; cbn;
    [intros []|].
  destruct (is_image f) eqn:Himg; cbn.
  - destruct (post (form level f)) as [data|e]; cbn.
    + specialize (IH (acc ++ [entry f data])%list).
      destruct (compress_each post level rest _) as [l r]. cbn in *.
      intros [<-|Hin]; [now exists f; auto|].
      destruct (IH Hin) as (g & Hg & Hrest). exists g. auto.
    + intros [<-|[]]. exists f. auto.
  - specialize (IH acc).
    destruct (compress_each post level rest acc) as [l r]. cbn in *.
    intros Hin. destruct (IH Hin) as (g & Hg & Hrest). exists g. auto.
Qed.

Lemma compress_each_ok files acc :
  (forall f, In f files -> is_image f = true ->
             exists data, post (form level f) = Ok data) ->
  exists log added,
    compress_each post level files acc = (log, Ok (acc ++ added)%list) /\
    Forall2 (answer post level) (filter is_image files) added /\
    posts log = map (form level) (filter is_image files).
Proof.
  revert acc. induction files as [|f rest IH]; intros acc Hok; cbn.
  - exists [], []. rewrite app_nil_r. repeat split. constructor.
  - destruct (is_image f) eqn:Himg; cbn.
    + destruct (Hok f (or_introl eq_refl) Himg) as [data Hdata].
      rewrite Hdata.
      destruct (IH (acc ++ [entry f data])%list) as (log & added & Hrun & Hans & Hposts).
      { intros g Hg. apply Hok. now right. }
      rewrite Hrun. exists (Axios_post (form level f) :: log),
        (entry f data :: added).
      rewrite <- app_assoc. cbn. repeat split.
      * constructor; [now exists data | exact Hans].
      * now rewrite Hposts.
    + destruct (IH acc) as (log & added & Hrun & Hans & Hposts).
      { intros g Hg. apply Hok. now right. }
      rewrite Hrun. now exists (Toast_error (dropped_name f ++ " is not an image file") :: log), added.
Qed.

Lemma compress_each_fail before f after acc e :
  (forall g, In g before -> is_image g = true ->
             exists data, post (form level g) = Ok data) ->
  is_image f = true ->
  post (form level f) = Throw e ->
  exists log,
    compress_each post level (before ++ f :: after) acc = (log, Throw e) /\
    posts log
    = (map (form level) (filter is_image before) ++ [form level f])%list.
Proof.
  intros Hok Himg Hthrow. revert acc.
  induction before as [|g before IH]; intros acc; cbn.
  - rewrite Himg, Hthrow. cbn. now exists [Axios_post (form level f)].
  - destruct (is_image g) eqn:Hg; cbn.
    + destruct (Hok g (or_introl eq_refl) Hg) as [data Hdata].
      rewrite Hdata.
      destruct (IH (fun h Hh => Hok h (or_intror Hh))
                  (acc ++ [entry g data])%list) as (log & Hrun & Hposts).
      rewrite Hrun. exists (Axios_post (form level g) :: log).
      cbn. now rewrite Hposts.
    + destruct (IH (fun h Hh => Hok h (or_intror Hh)) acc)
        as (log & Hrun & Hposts).
      rewrite Hrun.
      now exists (Toast_error (dropped_name g ++ " is not an image file") :: log).
Qed.

(** Whatever is dropped and whatever the server answers, the images
    already stored stay, in place and unchanged: a drop can only append.
    After a drop of at least one file the page is no longer marked as
    processing; a drop of no file does nothing at all. *)
Theorem onDrop_only_appends files st :
  (exists added,
     images (replay st (onDrop post level files))
     = (images st ++ added)%list) /\
  (files <> [] -> isProcessing (replay st (onDrop post level files)) = false) /\
  (files = [] -> onDrop post level files = []).
Proof.
  destruct files as [|f rest]; [|set (files := f :: rest)].
  - repeat split; try congruence. exists []. cbn. now rewrite app_nil_r.
  - assert (Hshape : exists l tail,
              onDrop post level files
              = (Set_isProcessing true :: l ++ tail ++ [Set_isProcessing false])%list /\
              (forall st', replay st' l = st') /\
              ((exists added, tail = [Set_images added;
                   Toast_success "Images compressed successfully!"]) \/
               (exists e, tail = [Console_error "Error compressing images:" e;
                   Toast_error "Failed to compress images. Please try again."]))).
    { unfold onDrop. subst files.
      pose proof (fun st' => compress_each_quiet (f :: rest) [] st') as Hq.
      destruct (compress_each post level (f :: rest) []) as [l r].
      exists l. destruct r as [newImages|e]; eexists; (split; [reflexivity|]);
        (split; [exact Hq|]); [left | right]; eauto. }
    destruct Hshape as (l & tail & -> & Hq & Htail).
    change (Set_isProcessing true :: l ++ tail ++ [Set_isProcessing false])%list
      with ([Set_isProcessing true] ++ l ++ tail ++ [Set_isProcessing false])%list.
    rewrite <- !replay_app, Hq.
    repeat split; try discriminate.
    destruct Htail as [[added ->]|[e ->]]; cbn.
    + now exists added.
    + exists []. now rewrite app_nil_r.
Qed.

Lemma onDrop_unfold files :
  files <> [] ->
  onDrop post level files
  = (Set_isProcessing true
       :: fst (compress_each post level files [])
       ++ closing (snd (compress_each post level files []))
       ++ [Set_isProcessing false])%list.
Proof.
  destruct files as [|f rest]; [congruence|]. intros _. unfold onDrop.
  destruct (compress_each post level (f :: rest) []) as [l r].
  destruct r; reflexivity.
Qed.

Lemma compress_each_effects files acc ef :
  In ef (fst (compress_each post level files acc)) ->
  (exists msg, ef = Toast_error (msg ++ " is not an image file")) \/
  (exists fd, ef = Axios_post fd).
Proof.
  revert acc. induction files as [|f rest IH]; intros acc; cbn;
    [intros []|].
  destruct (is_image f); cbn.
  - destruct (post (form level f)) as [data|e]; cbn.
    + specialize (IH (acc ++ [entry f data])%list).
      destruct (compress_each post level rest _) as [l r]. cbn in *.
      intros [<-|Hin]; [right; eauto | auto].
    + intros [<-|[]]. right; eauto.
  - specialize (IH acc).
    destruct (compress_each post level rest acc) as [l r]. cbn in *.
    intros [<-|Hin]; [left; eauto | auto].
Qed.

Lemma answer_fields files added :
  Forall2 (answer post level) files added ->
  map name added = map dropped_name files /\
  map originalSize added = map size files /\
  Forall (fun img => previewVisible img = false) added.
Proof.
  induction 1 as [|f img files added (data & _ & ->) _ (IHn & IHs & IHp)];
    cbn; [now repeat split|].
  rewrite IHn, IHs. repeat split. now constructor.
Qed.

(** When every image-typed file of a drop is answered, the page appends
    one entry per such file, in the order of the drop, after the images it
    had: each entry holds the file's name and size and what the answer has
    under [size], [compressedDataUrl] and [format], with the preview
    closed.  Exactly those files were posted, and success is announced. *)
Theorem onDrop_stores_answers files st :
  files <> [] ->
  (forall f, In f files -> is_image f = true ->
             exists data, post (form level f) = Ok data) ->
  exists added,
    images (replay st (onDrop post level files))
    = (images st ++ added)%list /\
    Forall2 (answer post level) (filter is_image files) added /\
    map name added = map dropped_name (filter is_image files) /\
    map originalSize added = map size (filter is_image files) /\
    Forall (fun img => previewVisible img = false) added /\
    posts (onDrop post level files)
    = map (form level) (filter is_image files) /\
    In (Toast_success "Images compressed successfully!")
       (onDrop post level files).
Proof.
  intros Hne Hok.
  destruct (compress_each_ok files [] Hok) as (log & added & Hrun & Hans & Hposts).
  destruct (answer_fields _ _ Hans) as (Hn & Hs & Hp).
  exists added. rewrite (onDrop_unfold files Hne), Hrun. cbn [fst snd closing app].
  repeat split; try assumption.
  - change (Set_isProcessing true :: log ++ ?t)%list
      with ([Set_isProcessing true] ++ log ++ t)%list.
    rewrite <- !replay_app.
    pose proof (compress_each_quiet files [] (replay st [Set_isProcessing true]))
      as Hq.
    rewrite Hrun in Hq. cbn [fst] in Hq. rewrite Hq. reflexivity.
  - cbn. rewrite posts_app. cbn. now rewrite app_nil_r.
  - right. apply in_or_app. right. right. now left.
Qed.

Lemma onDrop_failed_run before f after e st :
  (forall g, In g before -> is_image g = true ->
             exists data, post (form level g) = Ok data) ->
  is_image f = true ->
  post (form level f) = Throw e ->
  images (replay st (onDrop post level (before ++ f :: after)))
  = images st /\
  isProcessing (replay st (onDrop post level (before ++ f :: after)))
  = false /\
  posts (onDrop post level (before ++ f :: after))
  = (map (form level) (filter is_image before) ++ [form level f])%list /\
  In (Console_error "Error compressing images:" e)
     (onDrop post level (before ++ f :: after)) /\
  In (Toast_error "Failed to compress images. Please try again.")
     (onDrop post level (before ++ f :: after)) /\
  ~ In (Toast_success "Images compressed successfully!")
       (onDrop post level (before ++ f :: after)).
Proof.
  intros Hok Himg Hthrow.
  destruct (compress_each_fail before f after [] e Hok Himg Hthrow)
    as (log & Hrun & Hposts).
  assert (Hne : (before ++ f :: after)%list <> [])
    by (destruct before; discriminate).
  pose proof (compress_each_quiet (before ++ f :: after) []) as Hq.
  pose proof (compress_each_effects (before ++ f :: after) []) as Hef.
  rewrite (onDrop_unfold _ Hne), Hrun in *. cbn [fst snd closing] in *.
  repeat split.
  - change (Set_isProcessing true :: log ++ ?t)%list
      with ([Set_isProcessing true] ++ log ++ t)%list.
    rewrite <- !replay_app, Hq. reflexivity.
  - change (Set_isProcessing true :: log ++ ?t)%list
      with ([Set_isProcessing true] ++ log ++ t)%list.
    rewrite <- !replay_app, Hq. reflexivity.
  - cbn. rewrite posts_app. cbn. now rewrite app_nil_r.
  - right. apply in_or_app. right. now left.
  - right. apply in_or_app. right. right. now left.
  - intros [Hin|Hin]; [discriminate|].
    apply in_app_or in Hin. destruct Hin as [Hin|Hin].
    + destruct (Hef _ Hin) as [[msg Hm]|[fd Hm]]; discriminate.
    + cbn in Hin. repeat destruct Hin as [Hin|Hin]; try discriminate.
      contradiction.
Qed.

(** All or nothing: when the request for one file fails, nothing of the
    drop is stored, not even the files answered before it; the files after
    it are not posted, the failure is logged and announced, and no success
    is. *)
Theorem onDrop_all_or_nothing before f after e st :
  (forall g, In g before -> is_image g = true ->
             exists data, post (form level g) = Ok data) ->
  is_image f = true ->
  post (form level f) = Throw e ->
  images (replay st (onDrop post level (before ++ f :: after)))
  = images st /\
  isProcessing (replay st (onDrop post level (before ++ f :: after)))
  = false /\
  posts (onDrop post level (before ++ f :: after))
  = (map (form level) (filter is_image before) ++ [form level f])%list /\
  In (Console_error "Error compressing images:" e)
     (onDrop post level (before ++ f :: after)) /\
  In (Toast_error "Failed to compress images. Please try again.")
     (onDrop post level (before ++ f :: after)) /\
  ~ In (Toast_success "Images compressed successfully!")
       (onDrop post level (before ++ f :: after)).
Proof. apply onDrop_failed_run. Qed.

(** Only image-typed files are ever posted, each as a form whose [image]
    is the file and whose [compressionLevel] is the selected level. *)
Theorem onDrop_posts_only_images files fd :
  In fd (posts (onDrop post level files)) ->
  exists f,
    In f files /\
    is_image f = true /\
    FormData_get "image" fd
    = Some (EntryFile (mkFile (dropped_name f) (dropped_type f)
                         (Ok (dropped_bytes f)))) /\
    FormData_get "compressionLevel" fd
    = Some (EntryString (level_string level)).
Proof.
  destruct files as [|f0 rest]; [intros []|].
  rewrite onDrop_unfold by discriminate. cbn [posts]. rewrite posts_app.
  intros Hin. apply in_app_or in Hin. destruct Hin as [Hin|Hin].
  - destruct (compress_each_posts _ _ _ Hin) as (f & Hf & Himg & ->).
    exists f. repeat split; assumption.
  - exfalso. revert Hin.
    destruct (snd (compress_each post level (f0 :: rest) [])); cbn; tauto.
Qed.

(** A drop without a single image-typed file posts nothing and stores
    nothing; each file is refused by name, and success is announced all
    the same. *)
Theorem onDrop_without_images files :
  files <> [] ->
  (forall f, In f files -> is_image f = false) ->
  onDrop post level files
  = (Set_isProcessing true
       :: map (fun f => Toast_error (dropped_name f ++ " is not an image file"))
            files
       ++ [Set_images [];
           Toast_success "Images compressed successfully!";
           Set_isProcessing false])%list.
Proof.
  intros Hne Hnone.
  assert (Hrun : forall acc,
            compress_each post level files acc
            = (map (fun f => Toast_error
                               (dropped_name f ++ " is not an image file"))
                 files, Ok acc)).
  { clear Hne. induction files as [|f rest IH]; intros acc; cbn;
      [reflexivity|].
    rewrite (Hnone f (or_introl eq_refl)). cbn.
    rewrite IH; [reflexivity|]. intros g Hg. apply Hnone. now right. }
  rewrite (onDrop_unfold files Hne), Hrun. reflexivity.
Qed.

End Generic.

End OnDropFacts.

(** ** The page against the route *)

Lemma tier_reaches_switch tier file :
  level (Page.form tier file) = Page.tier_quality tier.
Proof. destruct tier; reflexivity. Qed.

Lemma page_request_run S tier file :
  POST S {| formData := Ok (Page.form tier file) |}
  = try_catch
      (bind (call EvFormData (Ok (Page.form tier file))) (fun _ =>
       bind (call EvArrayBuffer (Ok (Page.dropped_bytes file))) (fun _ =>
       process S (Page.dropped_bytes file) (Page.tier_quality tier))))
      POST_catch.
Proof.
  unfold POST, POST_try. cbn.
  change (resolveQuality (Some (EntryString (Page.level_string tier))))
    with (level (Page.form tier file)).
  now rewrite tier_reaches_switch.
Qed.

Lemma Forall2_In_left {A B} (R : A -> B -> Prop) l l' x :
  Forall2 R l l' -> In x l -> exists y, In y l' /\ R x y.
Proof.
  induction 1 as [|a b l l' Hab _ IH]; intros Hin; [destruct Hin|].
  destruct Hin as [<-|Hin].
  - exists b. split; [now left | exact Hab].
  - destruct (IH Hin) as (y & Hy & Hxy). exists y. split; [now right | exact Hxy].
Qed.

Lemma drop_answered post tier files st :
  files <> [] ->
  (forall f, In f files -> Page.is_image f = true ->
             exists data, post (Page.form tier f) = Ok data) ->
  exists added,
    Page.images (Page.replay st (Page.onDrop post tier files))
    = (Page.images st ++ added)%list /\
    Forall2 (Page.answer post tier) (filter Page.is_image files) added /\
    Page.posts (Page.onDrop post tier files)
    = map (Page.form tier) (filter Page.is_image files).
Proof.
  intros Hne Hok.
  destruct (OnDropFacts.compress_each_ok post tier files [] Hok)
    as (log & added & Hrun & Hans & Hposts).
  exists added. rewrite (OnDropFacts.onDrop_unfold post tier files Hne), Hrun.
  cbn [fst snd Page.closing app]. repeat split; try assumption.
  - change (Page.Set_isProcessing true :: log ++ ?t)%list
      with ([Page.Set_isProcessing true] ++ log ++ t)%list.
    rewrite <- !OnDropFacts.replay_app.
    pose proof (OnDropFacts.compress_each_quiet post tier files []
                  (Page.replay st [Page.Set_isProcessing true])) as Hq.
    rewrite Hrun in Hq. cbn [fst] in Hq. rewrite Hq. reflexivity.
  - cbn [Page.posts]. rewrite OnDropFacts.posts_app. cbn.
    now rewrite app_nil_r.
Qed.

Lemma accepted_upload S tier file p md fmt out :
  sharp S (Page.dropped_bytes file) = Ok p ->
  metadata S p = Ok md ->
  format md = Some fmt ->
  fmt <> EmptyString ->
  toBuffer S p (encoderFor fmt (Page.tier_quality tier)) = Ok out ->
  POST S {| formData := Ok (Page.form tier file) |}
  = ([EvFormData; EvArrayBuffer; EvSharp (Page.dropped_bytes file);
      EvMetadata; EvEncode (encoderFor fmt (Page.tier_quality tier))],
     Ok (success_response fmt out)) /\
  Page.route_post S (Page.form tier file)
  = Ok (body (success_response fmt out)).
Proof.
  intros Hp Hmd Hfmt Hne Hout.
  assert (Hrun : POST S {| formData := Ok (Page.form tier file) |}
                 = ([EvFormData; EvArrayBuffer;
                     EvSharp (Page.dropped_bytes file); EvMetadata;
                     EvEncode (encoderFor fmt (Page.tier_quality tier))],
                    Ok (success_response fmt out))).
  { rewrite page_request_run. unfold process. cbn.
    rewrite Hp. cbn. rewrite Hmd. cbn. rewrite Hfmt. cbn.
    destruct fmt as [|c fmt]; [congruence|]. cbn.
    rewrite Hout. reflexivity. }
  split; [exact Hrun|]. unfold Page.route_post. now rewrite Hrun.
Qed.

(** A file the codec takes goes through [onDrop] and the route: the file
    is posted, the level picked on the page reaches the encoder as
    quality 80, 60 or 40, axios resolves, and the page stores an entry
    with the file's own name and size, the length of the encoder's
    output, its data reference and the detected format.  Dropped alone,
    the file adds exactly that entry after the stored images; dropped
    with others that are all answered, the entry is among the stored
    images. *)
Theorem page_upload_stored S tier file p md fmt out st :
  Page.is_image file = true ->
  sharp S (Page.dropped_bytes file) = Ok p ->
  metadata S p = Ok md ->
  format md = Some fmt ->
  fmt <> EmptyString ->
  toBuffer S p (encoderFor fmt (Page.tier_quality tier)) = Ok out ->
  Page.posts (Page.onDrop (Page.route_post S) tier [file])
  = [Page.form tier file] /\
  encoder_calls
    (events (POST S {| formData := Ok (Page.form tier file) |}))
  = [encoderFor fmt (Page.tier_quality tier)] /\
  Page.images
    (Page.replay st (Page.onDrop (Page.route_post S) tier [file]))
  = (Page.images st
     ++ [Page.mkImage
           (Z.of_nat (List.length (Page.dropped_bytes file)))
           (Some (JNumber (Z.of_nat (List.length out))))
           (Some (JString (dataUrl fmt out)))
           (Page.dropped_name file)
           (Some (JString fmt))
           false])%list /\
  (forall files,
     In file files ->
     (forall g, In g files -> Page.is_image g = true ->
                exists data,
                  Page.route_post S (Page.form tier g) = Ok data) ->
     In (Page.mkImage
           (Z.of_nat (List.length (Page.dropped_bytes file)))
           (Some (JNumber (Z.of_nat (List.length out))))
           (Some (JString (dataUrl fmt out)))
           (Page.dropped_name file)
           (Some (JString fmt))
           false)
        (Page.images
           (Page.replay st (Page.onDrop (Page.route_post S) tier files)))).
Proof.
  intros Himg Hp Hmd Hfmt Hne Hout.
  destruct (accepted_upload S tier file p md fmt out Hp Hmd Hfmt Hne Hout)
    as (Hrun & Hpost).
  assert (Hstored : forall files,
            In file files ->
            (forall g, In g files -> Page.is_image g = true ->
                       exists data,
                         Page.route_post S (Page.form tier g) = Ok data) ->
            exists added,
              Page.images
                (Page.replay st (Page.onDrop (Page.route_post S) tier files))
              = (Page.images st ++ added)%list /\
              Forall2 (Page.answer (Page.route_post S) tier)
                (filter Page.is_image files) added /\
              Page.posts (Page.onDrop (Page.route_post S) tier files)
              = map (Page.form tier) (filter Page.is_image files) /\
              In (Page.entry file (body (success_response fmt out))) added).
  { intros files Hin Hok.
    assert (Hnil : files <> []) by (destruct files; [destruct Hin | discriminate]).
    destruct (drop_answered (Page.route_post S) tier files st Hnil Hok)
      as (added & Himages & Hans & Hposts).
    exists added. repeat split; try assumption.
    assert (Hf : In file (filter Page.is_image files))
      by (apply filter_In; now split).
    destruct (Forall2_In_left _ _ _ _ Hans Hf) as (img & Hi & data & Hdata & ->).
    rewrite Hpost in Hdata. injection Hdata as <-. exact Hi. }
  repeat split.
  - destruct (Hstored [file] (or_introl eq_refl)) as (added & _ & _ & Hposts & _).
    { intros g [<-|[]] _. eexists. exact Hpost. }
    rewrite Hposts. cbn. now rewrite Himg.
  - now rewrite Hrun.
  - destruct (Hstored [file] (or_introl eq_refl)) as (added & Himages & Hans & _).
    { intros g [<-|[]] _. eexists. exact Hpost. }
    rewrite Himages. f_equal. cbn in Hans. rewrite Himg in Hans.
    inversion Hans as [|? img ? rest (data & Hdata & ->) Hrest]; subst.
    inversion Hrest; subst.
    rewrite Hpost in Hdata. injection Hdata as <-. reflexivity.
  - intros files Hin Hok.
    destruct (Hstored files Hin Hok) as (added & Himages & _ & _ & Hentry).
    rewrite Himages. apply in_or_app. right. exact Hentry.
Qed.

Lemma page_upload_stored_witness :
  Page.images
    (Page.replay page0
       (Page.onDrop (Page.route_post stub) Page.high [photo]))
  = [stored_logo; stored_photo].
Proof.
  assert (Hne : "jpeg" <> EmptyString) by discriminate.
  destruct (page_upload_stored stub Page.high photo jpeg_bytes
              (mkMetadata (Some "jpeg") (Some 1) (Some 1)) "jpeg"
              [xff; xd8; xff; xff] page0
              eq_refl eq_refl eq_refl eq_refl Hne eq_refl)
    as (_ & _ & Himages & _).
  exact Himages.
Defined.

(** A request built by the page never draws the "No image file provided"
    answer.  When axios rejects, the route answered 400 because the
    detector found no format in the file, or 500 because something
    threw. *)
Theorem page_upload_rejections S tier file :
  result (POST S {| formData := Ok (Page.form tier file) |})
  <> Ok no_image_response /\
  (forall e,
     Page.route_post S (Page.form tier file) = Throw e ->
     (e = Page.axios_error invalid_format_response /\
      undecodable S (Page.dropped_bytes file)) \/
     (e = Page.axios_error failure_response /\
      exists e', fault S {| formData := Ok (Page.form tier file) |} e')).
Proof.
  pose proof (POST_path S {| formData := Ok (Page.form tier file) |}) as Hpath.
  unfold Page.route_post.
  destruct (POST S {| formData := Ok (Page.form tier file) |}) as [l r].
  inversion Hpath; subst; clear Hpath; cbn [result snd];
    repeat match goal with
           | H : formData _ = Ok _ |- _ => cbn in H; injection H as <-
           | H : formData _ = Throw _ |- _ => cbn in H; discriminate H
           | H : FormData_get "image" (Page.form _ _) = _ |- _ =>
               cbn in H; try discriminate H; injection H as <-
           | H : not_entry (FormData_get "image" (Page.form _ _)) = true |- _ =>
               cbn in H; discriminate H
           | H : arrayBuffer _ = Ok _ |- _ => cbn in H; injection H as <-
           | H : arrayBuffer _ = Throw _ |- _ => cbn in H; discriminate H
           end;
    (split; [discriminate|]); cbn; intros e0 He0;
    try discriminate He0; injection He0 as <-.
  - right. split; [reflexivity|]. eexists. eapply fault_sharp; try reflexivity.
    eassumption.
  - right. split; [reflexivity|]. eexists.
    eapply fault_metadata; try reflexivity; eassumption.
  - left. split; [reflexivity|]. now exists p, md.
  - right. split; [reflexivity|]. eexists.
    eapply fault_toBuffer; try reflexivity; eassumption.
Qed.

Lemma unreadable_upload_throws S tier file :
  unreadable S (Page.dropped_bytes file) ->
  exists response,
    result (POST S {| formData := Ok (Page.form tier file) |}) = Ok response /\
    (((exists e, sharp S (Page.dropped_bytes file) = Throw e) \/
      (exists p e, sharp S (Page.dropped_bytes file) = Ok p /\
                   metadata S p = Throw e)) /\
     response = failure_response /\ status response = 500
     \/
     undecodable S (Page.dropped_bytes file) /\
     response = invalid_format_response /\ status response = 400) /\
    Page.route_post S (Page.form tier file)
    = Throw (Page.axios_error response).
Proof.
  intros [[e He] | [(p & e & Hp & He) | Hund]].
  - exists failure_response.
    assert (Hres : result (POST S {| formData := Ok (Page.form tier file) |})
                   = Ok failure_response).
    { rewrite page_request_run. unfold process. cbn. now rewrite He. }
    repeat split; [exact Hres | left; repeat split; eauto |].
    unfold Page.route_post. now rewrite Hres.
  - exists failure_response.
    assert (Hres : result (POST S {| formData := Ok (Page.form tier file) |})
                   = Ok failure_response).
    { rewrite page_request_run. unfold process. cbn.
      rewrite Hp. cbn. now rewrite He. }
    repeat split; [exact Hres | left; repeat split; eauto |].
    unfold Page.route_post. now rewrite Hres.
  - exists invalid_format_response.
    assert (Hres : result (POST S {| formData := Ok (Page.form tier file) |})
                   = Ok invalid_format_response).
    { destruct Hund as (p & md & Hp & Hmd & Hfmt).
      rewrite page_request_run. unfold process. cbn.
      rewrite Hp. cbn. rewrite Hmd. cbn. now rewrite Hfmt. }
    repeat split; [exact Hres | right; repeat split; assumption |].
    unfold Page.route_post. now rewrite Hres.
Qed.

(** One file the route cannot read costs the whole drop.  If detection
    fails on an image-typed file among those dropped (the codec throws on
    its bytes, as sharp does on bytes that are no image, or resolves
    without a format), the route answers 500 in the first case and 400 in
    the second, axios rejects with that answer's error, and the page
    stores none of the files, the ones compressed before it included,
    posts none of the files after it, and reports a failure and no
    success. *)
Theorem unreadable_file_fails_drop S tier before f after st :
  (forall g, In g before -> Page.is_image g = true ->
             exists data, Page.route_post S (Page.form tier g) = Ok data) ->
  Page.is_image f = true ->
  unreadable S (Page.dropped_bytes f) ->
  exists response,
    result (POST S {| formData := Ok (Page.form tier f) |}) = Ok response /\
    (((exists e, sharp S (Page.dropped_bytes f) = Throw e) \/
      (exists p e, sharp S (Page.dropped_bytes f) = Ok p /\
                   metadata S p = Throw e)) /\
     response = failure_response /\ status response = 500
     \/
     undecodable S (Page.dropped_bytes f) /\
     response = invalid_format_response /\ status response = 400) /\
    Page.route_post S (Page.form tier f)
    = Throw (Page.axios_error response) /\
    Page.images
      (Page.replay st
         (Page.onDrop (Page.route_post S) tier (before ++ f :: after)))
    = Page.images st /\
    Page.posts (Page.onDrop (Page.route_post S) tier (before ++ f :: after))
    = (map (Page.form tier) (filter Page.is_image before)
       ++ [Page.form tier f])%list /\
    In (Page.Toast_error "Failed to compress images. Please try again.")
       (Page.onDrop (Page.route_post S) tier (before ++ f :: after)) /\
    ~ In (Page.Toast_success "Images compressed successfully!")
         (Page.onDrop (Page.route_post S) tier (before ++ f :: after)).
Proof.
  intros Hok Himg Hun.
  destruct (unreadable_upload_throws S tier f Hun)
    as (response & Hres & Hcause & Hthrow).
  destruct (OnDropFacts.onDrop_failed_run (Page.route_post S) tier
              before f after (Page.axios_error response) st
              Hok Himg Hthrow)
    as (Himages & _ & Hposts & _ & Herr & Hno).
  exists response. repeat split; assumption.
Qed.

Lemma unreadable_file_fails_drop_witness :
  exists response,
    result (POST strict {| formData := Ok (Page.form Page.medium fake_png) |})
    = Ok response /\
    status response = 500 /\
    Page.images
      (Page.replay page0
         (Page.onDrop (Page.route_post strict) Page.medium
            ([photo] ++ fake_png :: [anim])))
    = [stored_logo].
Proof.
  destruct (unreadable_file_fails_drop strict Page.medium
              [photo] fake_png [anim] page0)
    as (response & Hres & Hcause & _ & Himages & _).
  - intros g [<-|[]] _. eexists. vm_compute. reflexivity.
  - reflexivity.
  - right. left. exists text_bytes, unsupported_format. split; reflexivity.
  - exists response. split; [exact Hres|]. split; [|exact Himages].
    destruct Hcause as [(_ & _ & Hst) | ((q & md & Hq & Hmd & _) & _ & _)];
      [exact Hst|].
    cbn in Hq. injection Hq as <-. vm_compute in Hmd. discriminate Hmd.
Defined.

(** ** Closed runs of a drop *)

Lemma onDrop_stores_answers_witness :
  exists added,
    Page.images
      (Page.replay page0
         (Page.onDrop (Page.route_post stub) Page.medium [photo; notes; anim]))
    = (Page.images page0 ++ added)%list /\
    map Page.name added = ["photo.jpg"; "anim.gif"].
Proof.
  destruct (OnDropFacts.onDrop_stores_answers (Page.route_post stub)
              Page.medium [photo; notes; anim] page0)
    as (added & Himages & _ & Hnames & _).
  - discriminate.
  - intros f [<-|[<-|[<-|[]]]] Himg.
    + eexists. vm_compute. reflexivity.
    + discriminate Himg.
    + eexists. vm_compute. reflexivity.
  - exists added. split; [exact Himages | exact Hnames].
Defined.

Lemma onDrop_all_or_nothing_witness :
  Page.images
    (Page.replay page0
       (Page.onDrop (Page.route_post stub) Page.medium
          ([photo] ++ fake_png :: [anim])))
  = Page.images page0 /\
  Page.posts
    (Page.onDrop (Page.route_post stub) Page.medium
       ([photo] ++ fake_png :: [anim]))
  = [Page.form Page.medium photo; Page.form Page.medium fake_png].
Proof.
  destruct (OnDropFacts.onDrop_all_or_nothing (Page.route_post stub)
              Page.medium [photo] fake_png [anim]
              (Page.axios_error invalid_format_response) page0)
    as (Himages & _ & Hposts & _).
  - intros g [<-|[]] _. eexists. vm_compute. reflexivity.
  - reflexivity.
  - vm_compute. reflexivity.
  - split; [exact Himages | exact Hposts].
Defined.

Lemma onDrop_posts_only_images_witness :
  exists f,
    In f [notes; photo] /\
    Page.is_image f = true /\
    FormData_get "image" (Page.form Page.low photo)
    = Some (EntryFile (mkFile (Page.dropped_name f) (Page.dropped_type f)
                         (Ok (Page.dropped_bytes f)))) /\
    FormData_get "compressionLevel" (Page.form Page.low photo)
    = Some (EntryString (Page.level_string Page.low)).
Proof.
  apply (OnDropFacts.onDrop_posts_only_images (Page.route_post stub)
           Page.low [notes; photo] (Page.form Page.low photo)).
  vm_compute. left. reflexivity.
Defined.

Lemma onDrop_without_images_witness :
  Page.onDrop (Page.route_post stub) Page.high [notes]
  = [Page.Set_isProcessing true;
     Page.Toast_error "notes.txt is not an image file";
     Page.Set_images [];
     Page.Toast_success "Images compressed successfully!";
     Page.Set_isProcessing false].
Proof.
  apply (OnDropFacts.onDrop_without_images (Page.route_post stub)
           Page.high [notes]).
  - discriminate.
  - intros f [<-|[]]. reflexivity.
Defined.
